(** * Lohpi: directory server core, dataset lookup service, membership store

    A shallow embedding of the Go sources

      - core/datasetmanager/datasetlookupservice.go
      - core/membershipmanager/database.go
      - core/directoryserver/directoryservercore.go

    Go values of type [error] are modelled by their message ([option error],
    [None] is Go's [nil]); a pointer or a slice that may be [nil] is an
    [option]; the global logger is an explicit list of entries threaded
    through the state of the component that logs. Every command sent to an
    external service (Redis, PostgreSQL) consumes one entry of a fault
    schedule carried in the state of that service: any pattern of transient
    failures can be expressed, and an unchanged schedule shows that no
    command was issued. *)

From Stdlib Require Import ZArith.
From Stdlib.Strings Require Import Byte.
From stdpp Require Import base option list strings pretty gmap.

Open Scope Z_scope.
Open Scope string_scope.

(** ** Go basics *)

Definition error := string.

Abbreviation bytes := (list byte).

#[global] Instance byte_eq_dec : EqDecision byte := Byte.byte_eq_dec.

(** The line feed of a format string. *)
Definition nl : string := String (Ascii.ascii_of_nat 10) EmptyString.

(** The logrus logger: entries are kept oldest first. *)
Module Log.

Inductive Level := Error | Warn | Info.

Record Entry := mkEntry { level : Level; text : string }.

#[global] Instance Level_eq_dec : EqDecision Level.
Proof. solve_decision. Defined.

#[global] Instance Entry_eq_dec : EqDecision Entry.
Proof. solve_decision. Defined.

End Log.

(** ** Package [message]: the message type tags

    Modelled from the spec: the file declaring these constants is not among
    the sources. The tags the handlers switch on are constructors; every
    other tag is [MSG_TYPE_OTHER] with its text. *)
Module message.

Inductive MsgType :=
  | MSG_TYPE_OK
  | MSG_TYPE_ADD_DATASET_IDENTIFIER
  | MSG_SYNCHRONIZE_DATASET_IDENTIFIERS
  | MSG_TYPE_PROBE
  | MSG_TYPE_POLICY_STORE_UPDATE
  | MSG_TYPE_ROLLBACK_CHECKOUT
  | MSG_TYPE_OTHER (tag : string).

#[global] Instance MsgType_eq_dec : EqDecision MsgType.
Proof. solve_decision. Defined.

Definition typeString (t : MsgType) : string :=
  match t with
  | MSG_TYPE_OK => "MSG_TYPE_OK"
  | MSG_TYPE_ADD_DATASET_IDENTIFIER => "MSG_TYPE_ADD_DATASET_IDENTIFIER"
  | MSG_SYNCHRONIZE_DATASET_IDENTIFIERS => "MSG_SYNCHRONIZE_DATASET_IDENTIFIERS"
  | MSG_TYPE_PROBE => "MSG_TYPE_PROBE"
  | MSG_TYPE_POLICY_STORE_UPDATE => "MSG_TYPE_POLICY_STORE_UPDATE"
  | MSG_TYPE_ROLLBACK_CHECKOUT => "MSG_TYPE_ROLLBACK_CHECKOUT"
  | MSG_TYPE_OTHER tag => tag
  end.

End message.

(** ** Package [pb]: the protobuf messages, with their nil-safe getters *)
Module Pb.

Record Timestamp := mkTimestamp { Seconds : Z; Nanos : Z }.

Record Node := mkNode {
  Name : string;
  IfritAddress : string;
  Id : bytes;
  HttpsAddress : string;
  Port : Z;
  BootTime : option Timestamp
}.

Record MsgSignature := mkMsgSignature { R : bytes; S : bytes }.

Record Policy := mkPolicy { DatasetIdentifier : string; Content : bool }.

Record GossipMessageBody := mkGossipMessageBody { policy : option Policy }.

(** The identifier of a gossip message is only compared for equality. *)
Record GossipMessage := mkGossipMessage {
  GossipMessageID : string;
  body : option (list GossipMessageBody)
}.

Record Message := mkMessage {
  type : message.MsgType;
  Sender : option Node;
  StringValue : string;
  StringSlice : option (list string);
  Signature : option MsgSignature;
  gossipMessage : option GossipMessage
}.

Record HandshakeResponse := mkHandshakeResponse { Ip : string; RespId : bytes }.

#[global] Instance Timestamp_eq_dec : EqDecision Timestamp.
Proof. solve_decision. Defined.

#[global] Instance Node_eq_dec : EqDecision Node.
Proof. solve_decision. Defined.

#[global] Instance MsgSignature_eq_dec : EqDecision MsgSignature.
Proof. solve_decision. Defined.

#[global] Instance Policy_eq_dec : EqDecision Policy.
Proof. solve_decision. Defined.

#[global] Instance GossipMessageBody_eq_dec : EqDecision GossipMessageBody.
Proof. solve_decision. Defined.

#[global] Instance GossipMessage_eq_dec : EqDecision GossipMessage.
Proof. solve_decision. Defined.

#[global] Instance Message_eq_dec : EqDecision Message.
Proof. solve_decision. Defined.

Definition GetName (n : option Node) : string :=
  match n with Some n => Name n | None => "" end.

Definition GetIfritAddress (n : option Node) : string :=
  match n with Some n => IfritAddress n | None => "" end.

Definition GetId (n : option Node) : bytes :=
  match n with Some n => Id n | None => [] end.

Definition GetHttpsAddress (n : option Node) : string :=
  match n with Some n => HttpsAddress n | None => "" end.

Definition GetPort (n : option Node) : Z :=
  match n with Some n => Port n | None => 0 end.

Definition GetBootTime (n : option Node) : option Timestamp :=
  match n with Some n => BootTime n | None => None end.

(** [AsTime] of timestamppb: a nil timestamp is the Unix epoch. *)
Definition AsTime (t : option Timestamp) : Timestamp :=
  match t with Some t => t | None => mkTimestamp 0 0 end.

Definition GetPolicy (m : GossipMessageBody) : option Policy := policy m.

Definition GetDatasetIdentifier (p : option Policy) : string :=
  match p with Some p => DatasetIdentifier p | None => "" end.

Definition GetGossipMessageBody (g : option GossipMessage)
  : option (list GossipMessageBody) :=
  match g with Some g => body g | None => None end.

(** The message a handler returns on success: only the type is set. *)
Definition ofType (t : message.MsgType) : Message :=
  {| type := t; Sender := None; StringValue := ""; StringSlice := None;
     Signature := None; gossipMessage := None |}.

Definition withSignature (sig : option MsgSignature) (m : Message) : Message :=
  {| type := type m; Sender := Sender m; StringValue := StringValue m;
     StringSlice := StringSlice m; Signature := sig;
     gossipMessage := gossipMessage m |}.

End Pb.

(** ** External libraries, by the interface the sources use *)

(** [proto.Marshal] and [proto.Unmarshal] on [pb.Message] and [pb.Node]. *)
Class Proto := {
  Marshal : Pb.Message -> error + bytes;
  Unmarshal : bytes -> error + Pb.Message;
  MarshalNode : option Pb.Node -> error + bytes
}.

(** The Ifrit client of the directory server: its identity, signing and
    signature verification. *)
Class Ifrit := {
  IfritId : string;
  Sign : bytes -> error + (bytes * bytes);
  VerifySignature : bytes -> bytes -> bytes -> bytes -> bool
}.

(** [time.Time.Format] with the layout [time.RFC1123Z]. *)
Class TimeFormat := { FormatRFC1123Z : Pb.Timestamp -> string }.

(** The go-redis client, as far as the lookup service uses it. [kv] is the
    key space of the server and [faults] its fault schedule: a command
    whose schedule entry is [true] fails with a connection error and leaves
    the key space alone; an exhausted schedule means no more faults. *)
Module Redis.

Record Client := mkClient {
  kv : gmap string bytes;
  faults : list bool
}.

(** The result objects [*redis.IntCmd] and [*redis.StatusCmd]. *)
Record IntCmd := mkIntCmd { intVal : Z; intErr : option error }.

Record StatusCmd := mkStatusCmd { statusErr : option error }.

Definition Err (c : IntCmd) : option error := intErr c.

Definition Result (c : IntCmd) : Z * option error := (intVal c, intErr c).

Definition errConn : error := "redis: connection refused".

Definition nextFault (c : Client) : bool :=
  match faults c with
  | f :: _ => f
  | [] => false
  end.

Definition advance (c : Client) : Client :=
  {| kv := kv c; faults := tail (faults c) |}.

(** EXISTS key *)
Definition Exists (key : string) (c : Client) : IntCmd * Client :=
  if nextFault c then ({| intVal := 0; intErr := Some errConn |}, advance c)
  else
    ({| intVal := if bool_decide (is_Some (kv c !! key)) then 1 else 0;
        intErr := None |}, advance c).

(** SET key value, without expiry *)
Definition Set_ (key : string) (value : bytes) (c : Client)
  : StatusCmd * Client :=
  if nextFault c then ({| statusErr := Some errConn |}, advance c)
  else
    ({| statusErr := None |},
     {| kv := <[key := value]> (kv c); faults := tail (faults c) |}).

(** The result object [*redis.SliceCmd]: one entry per key asked for, nil
    for a key that is absent. *)
Record SliceCmd := mkSliceCmd { sliceVal : list (option bytes); sliceErr : option error }.

Definition SliceErr (c : SliceCmd) : option error := sliceErr c.

Definition SliceResult (c : SliceCmd) : list (option bytes) * option error :=
  (sliceVal c, sliceErr c).

(** The iterator of a SCAN over all keys: the keys it yields and the error
    it ends with. *)
Record ScanIterator := mkScanIterator { scanVals : list string; scanErr : option error }.

(** MGET key *)
Definition MGet (key : string) (c : Client) : SliceCmd * Client :=
  if nextFault c then ({| sliceVal := []; sliceErr := Some errConn |}, advance c)
  else ({| sliceVal := [kv c !! key]; sliceErr := None |}, advance c).

(** DEL key: the number of keys removed. *)
Definition Del (key : string) (c : Client) : IntCmd * Client :=
  if nextFault c then ({| intVal := 0; intErr := Some errConn |}, advance c)
  else
    ({| intVal := if bool_decide (is_Some (kv c !! key)) then 1 else 0;
        intErr := None |},
     {| kv := delete key (kv c); faults := tail (faults c) |}).

(** SCAN 0 MATCH * driven to its end. The order of the keys is the
    server's; here it is the order of [map_to_list]. *)
Definition Scan (c : Client) : ScanIterator * Client :=
  if nextFault c then ({| scanVals := []; scanErr := Some errConn |}, advance c)
  else ({| scanVals := (map_to_list (kv c)).*1; scanErr := None |}, advance c).

(** FLUSHALL *)
Definition FlushAll (c : Client) : StatusCmd * Client :=
  if nextFault c then ({| statusErr := Some errConn |}, advance c)
  else ({| statusErr := None |}, {| kv := ∅; faults := tail (faults c) |}).

End Redis.

(** ** core/datasetmanager/datasetlookupservice.go *)
Module DatasetManager.

(** The PostgreSQL side of the lookup service (its [db...] methods) is in a
    file of the package that is not among the sources. The three methods
    used here are the members of this interface, each a transition on the
    state [DB] of the store, whatever that state is. *)
Class LookupStore (DB : Type) := {
  dbDatasetNodeExists : string -> DB -> bool * DB;
  dbSelectDatasetNode : string -> DB -> option Pb.Node * DB;
  dbInsertDatasetNode : string -> option Pb.Node -> DB -> option error * DB
}.

Record DatasetLookupService (DB : Type) := mkService {
  redisClient : option Redis.Client;
  datasetLookupDB : DB;
  logs : list Log.Entry
}.

Arguments mkService {DB}.
Arguments redisClient {DB}.
Arguments datasetLookupDB {DB}.
Arguments logs {DB}.

Definition setRedis {DB} (r : Redis.Client) (d : DatasetLookupService DB) :=
  {| redisClient := Some r; datasetLookupDB := datasetLookupDB d; logs := logs d |}.

Definition setDB {DB} (db : DB) (d : DatasetLookupService DB) :=
  {| redisClient := redisClient d; datasetLookupDB := db; logs := logs d |}.

Definition logAt {DB} (lvl : Log.Level) (msg : string) (d : DatasetLookupService DB) :=
  {| redisClient := redisClient d; datasetLookupDB := datasetLookupDB d;
     logs := logs d ++ [Log.mkEntry lvl msg] |}.

Definition logIfError {DB} (err : option error) (d : DatasetLookupService DB) :=
  match err with
  | Some e => logAt Log.Error e d
  | None => d
  end.

(** The cache methods are only called after the caller has checked
    [d.redisClient != nil]; they receive that client as [r]. *)
Definition cacheInsertDatasetNode `{Proto} {DB} (datasetId : string)
    (node : option Pb.Node) (r : Redis.Client) (d : DatasetLookupService DB)
    : option error * DatasetLookupService DB :=
  let d := logAt Log.Info "Inserting into cache!" d in
  match MarshalNode node with
  | inl err => (Some err, d)
  | inr nodeBytes =>
      let '(cmd, r') := Redis.Set_ datasetId nodeBytes r in
      (Redis.statusErr cmd, setRedis r' d)
  end.

Definition InsertDatasetNode `{Proto} `{LookupStore DB} (datasetId : string)
    (node : option Pb.Node) (d : DatasetLookupService DB)
    : option error * DatasetLookupService DB :=
  let d :=
    match redisClient d with
    | Some r =>
        let '(err, d) := cacheInsertDatasetNode datasetId node r d in
        logIfError err d
    | None => d
    end in
  let '(err, db') := dbInsertDatasetNode datasetId node (datasetLookupDB d) in
  (err, setDB db' d).

Definition cacheDatasetNodeExists (datasetId : string) (r : Redis.Client)
    : (bool * option error) * Redis.Client :=
  let '(cmd, r') := Redis.Exists datasetId r in
  match Redis.Err cmd with
  | Some e => ((false, Some e), r')
  | None =>
      let '(n, err) := Redis.Result cmd in
      match err with
      | Some _ => ((false, Redis.Err cmd), r')
      | None => if (n =? 1)%Z then ((true, None), r') else ((false, None), r')
      end
  end.

Definition DatasetNodeExists `{Proto} `{LookupStore DB} (datasetId : string)
    (d : DatasetLookupService DB) : bool * DatasetLookupService DB :=
  if decide (datasetId = "") then
    (false, logAt Log.Error "Dataset identifier must not be empty" d)
  else
    let '(hit, d) :=
      match redisClient d with
      | Some r =>
          let '((exists_, err), r') := cacheDatasetNodeExists datasetId r in
          let d := setRedis r' d in
          if exists_ && bool_decide (err = None) then (true, d)
          else (false, logIfError err d)
      | None => (false, d)
      end in
    if hit then (true, d)
    else
      (* If there was a cache miss but a hit in PSQL, insert it into Redis *)
      let '(exists_, db') := dbDatasetNodeExists datasetId (datasetLookupDB d) in
      let d := setDB db' d in
      match (if exists_ then redisClient d else None) with
      | Some r =>
          let '(node, db') := dbSelectDatasetNode datasetId (datasetLookupDB d) in
          let d := setDB db' d in
          match node with
          | Some _ =>
              match MarshalNode node with
              | inl err => (exists_, logAt Log.Error err d)
              | inr nodeBytes =>
                  let '(cmd, r') := Redis.Set_ datasetId nodeBytes r in
                  (exists_, logIfError (Redis.statusErr cmd) (setRedis r' d))
              end
          | None => (exists_, d)
          end
      | None => (exists_, d)
      end.

(** The cache answers a probe for [k]: it is configured, the probe does not
    fault, and the key is present. *)
Definition cacheHit {DB} (k : string) (d : DatasetLookupService DB) : bool :=
  match redisClient d with
  | Some r => negb (Redis.nextFault r) && bool_decide (is_Some (Redis.kv r !! k))
  | None => false
  end.

(** *** The other methods of the service *)

(** The two further methods of the PostgreSQL side that the service calls,
    parameters like those of [LookupStore]. *)
Class LookupStoreAdmin (DB : Type) := {
  dbRemoveDatasetNode : string -> DB -> option error * DB;
  dbSelectDatasetIdentifiers : DB -> list string * DB
}.

(** [proto.Unmarshal] into a [pb.Node]. *)
Class ProtoNode := { UnmarshalNode : bytes -> error + Pb.Node }.

Definition cacheDatasetNode `{ProtoNode} (datasetId : string) (r : Redis.Client)
    : (option Pb.Node * option error) * Redis.Client :=
  let '(cmd, r') := Redis.MGet datasetId r in
  match Redis.SliceErr cmd with
  | Some e => ((None, Some e), r')
  | None =>
      let '(nodeBytes, err) := Redis.SliceResult cmd in
      match err with
      | Some e => ((None, Some e), r')
      | None =>
          match nodeBytes with
          | Some bs :: _ =>
              match UnmarshalNode bs with
              | inl e => ((None, Some e), r')
              | inr node => ((Some node, None), r')
              end
          | _ => ((None, Some "Node was not found in cache"), r')
          end
      end
  end.

Definition DatasetNode `{ProtoNode} `{LookupStore DB} (datasetId : string)
    (d : DatasetLookupService DB) : option Pb.Node * DatasetLookupService DB :=
  let '(found, d) :=
    match redisClient d with
    | Some r =>
        let '((node, err), r') := cacheDatasetNode datasetId r in
        let d := setRedis r' d in
        match node, err with
        | Some _, None => (node, d)
        | _, _ => (None, logIfError err d)
        end
    | None => (None, d)
    end in
  match found with
  | Some _ => (found, d)
  | None =>
      let '(node, db') := dbSelectDatasetNode datasetId (datasetLookupDB d) in
      (node, setDB db' d)
  end.

Definition cacheRemoveDatasetNode (datasetId : string) (r : Redis.Client)
    : option error * Redis.Client :=
  let '(cmd, r') := Redis.Del datasetId r in
  match Redis.Err cmd with
  | Some e => (Some e, r')
  | None =>
      let '(n, err) := Redis.Result cmd in
      match err with
      | Some _ => (Redis.Err cmd, r')
      | None =>
          if (n =? 1)%Z then (None, r')
          else
            (Some ("Dataset node with identifier '" +:+ datasetId +:+ "' was not found"), r')
      end
  end.

Definition RemoveDatasetNode `{LookupStoreAdmin DB} (datasetId : string)
    (d : DatasetLookupService DB) : option error * DatasetLookupService DB :=
  let d :=
    match redisClient d with
    | Some r =>
        let '(err, r') := cacheRemoveDatasetNode datasetId r in
        logIfError err (setRedis r' d)
    | None => d
    end in
  let '(err, db') := dbRemoveDatasetNode datasetId (datasetLookupDB d) in
  (err, setDB db' d).

(** The slice is nil exactly when the iterator ended with an error. *)
Definition cacheDatasetIdentifiers (r : Redis.Client)
    : (option (list string) * option error) * Redis.Client :=
  let '(iter, r') := Redis.Scan r in
  match Redis.scanErr iter with
  | Some e => ((None, Some e), r')
  | None => ((Some (Redis.scanVals iter), None), r')
  end.

(** What the entry of [log.Error(err.Error)] shows: the source passes the
    method value, not its result, so the entry is the print of a function
    value and not the message of the error. *)
Definition methodValueText : string := "(func() string)".

Definition DatasetIdentifiers `{LookupStoreAdmin DB} (d : DatasetLookupService DB)
    : list string * DatasetLookupService DB :=
  let '(found, d) :=
    match redisClient d with
    | Some r =>
        let '((ids, err), r') := cacheDatasetIdentifiers r in
        let d := setRedis r' d in
        match ids, err with
        | Some _, None => (ids, d)
        | _, Some _ => (None, logAt Log.Error methodValueText d)
        | _, None => (None, d)
        end
    | None => (None, d)
    end in
  match found with
  | Some ids => (ids, d)
  | None =>
      let '(ids, db') := dbSelectDatasetIdentifiers (datasetLookupDB d) in
      (ids, setDB db' d)
  end.

(** [flushAll], called on a configured client only. *)
Definition flushAll {DB} (r : Redis.Client) (d : DatasetLookupService DB)
    : option error * DatasetLookupService DB :=
  let '(cmd, r') := Redis.FlushAll r in
  (Redis.statusErr cmd, setRedis r' d).

(** The node a probe of the cache for [k] would hand out: the cache is
    configured, the command does not fault, the key is present and its
    bytes unmarshal. *)
Definition cachedNode `{ProtoNode} {DB} (k : string) (d : DatasetLookupService DB)
    : option Pb.Node :=
  match redisClient d with
  | Some r =>
      if Redis.nextFault r then None
      else
        match Redis.kv r !! k with
        | Some bs =>
            match UnmarshalNode bs with
            | inr node => Some node
            | inl _ => None
            end
        | None => None
        end
  | None => None
  end.

End DatasetManager.

(** ** The pgx connection pool, as far as the membership store uses it

    [table] is the storage-node table, one record per row, with the columns
    the statements of database.go name; the primary key and the unique
    index on [node_name], which [ON CONFLICT (node_name)] requires, are the
    invariant [uniqueNames]. [faults] is the fault schedule of the
    connection, as for Redis. *)
Module Pgx.

Record Row := mkRow {
  node_name : string;
  ip_address : string;
  public_id : bytes;
  https_address : string;
  port : Z;
  boottime : string
}.

#[global] Instance Row_eq_dec : EqDecision Row.
Proof. solve_decision. Defined.

Record Pool := mkPool {
  table : list Row;
  faults : list bool
}.

Record CommandTag := mkCommandTag { RowsAffected : Z }.

Definition errConn : error := "failed to connect to database".

Definition nextFault (p : Pool) : bool :=
  match faults p with
  | f :: _ => f
  | [] => false
  end.

Definition uniqueNames (t : list Row) : Prop := NoDup (node_name <$> t).

Definition named (name : string) (t : list Row) : list Row :=
  filter (fun r => node_name r = name) t.

(** INSERT INTO t (...) VALUES ($1, ..., $6)
    ON CONFLICT (node_name) DO UPDATE SET (all six columns)
    WHERE t.node_name = $1: the row in conflict is overwritten in place,
    without a conflict the new row is appended. *)
Definition upsert (new : Row) (t : list Row) : list Row :=
  if bool_decide (node_name new ∈ node_name <$> t) then
    (fun old => if decide (node_name old = node_name new) then new else old) <$> t
  else t ++ [new].

Definition ExecUpsert (new : Row) (p : Pool) : (CommandTag * option error) * Pool :=
  if nextFault p then
    ((mkCommandTag 0, Some errConn), {| table := table p; faults := tail (faults p) |})
  else
    ((mkCommandTag 1, None),
     {| table := upsert new (table p); faults := tail (faults p) |}).

(** DELETE FROM t WHERE node_name = $1 *)
Definition ExecDelete (name : string) (p : Pool) : (CommandTag * option error) * Pool :=
  if nextFault p then
    ((mkCommandTag 0, Some errConn), {| table := table p; faults := tail (faults p) |})
  else
    ((mkCommandTag (Z.of_nat (length (named name (table p)))), None),
     {| table := filter (fun r => node_name r <> name) (table p);
        faults := tail (faults p) |}).

(** [pgx.ErrNoRows], the error of [Scan] on a [QueryRow] without a row. *)
Definition ErrNoRows : error := "no rows in result set".

(** SELECT * FROM t WHERE node_name = $1, read with [QueryRow(...).Scan]:
    the first row of that name, [ErrNoRows] without one. The serial [id]
    column that [Scan] reads first is not kept: no caller uses it. *)
Definition QueryRowByName (name : string) (p : Pool) : (error + Row) * Pool :=
  if nextFault p then
    (inl errConn, {| table := table p; faults := tail (faults p) |})
  else
    (match named name (table p) with
     | r :: _ => inr r
     | [] => inl ErrNoRows
     end,
     {| table := table p; faults := tail (faults p) |}).

(** SELECT EXISTS (SELECT 1 FROM t WHERE node_name = $1), read with
    [QueryRow(...).Scan]. *)
Definition QueryRowExists (name : string) (p : Pool) : (error + bool) * Pool :=
  if nextFault p then
    (inl errConn, {| table := table p; faults := tail (faults p) |})
  else
    (inr (bool_decide (named name (table p) <> [])),
     {| table := table p; faults := tail (faults p) |}).

(** SELECT * FROM t, read with [Query]: all the rows, in table order. *)
Definition QueryAll (p : Pool) : (error + list Row) * Pool :=
  if nextFault p then
    (inl errConn, {| table := table p; faults := tail (faults p) |})
  else
    (inr (table p), {| table := table p; faults := tail (faults p) |}).

End Pgx.

(** ** core/membershipmanager/database.go *)
Module MembershipManager.

Record MembershipManagerUnit := mkUnit {
  pool : Pgx.Pool;
  logs : list Log.Entry
}.

Definition errNoNodeId : error := "Node's name is not set".

Definition errNilNode : error := "Node is nil".

Definition setPool (p : Pgx.Pool) (m : MembershipManagerUnit) :=
  {| pool := p; logs := logs m |}.

Definition logAt (lvl : Log.Level) (msg : string) (m : MembershipManagerUnit) :=
  {| pool := pool m; logs := logs m ++ [Log.mkEntry lvl msg] |}.

(** The row [dbInsertNetworkNode] passes to its statement as $1 ... $6. *)
Definition rowOf `{TimeFormat} (nodeId : string) (node : option Pb.Node) : Pgx.Row :=
  {| Pgx.node_name := nodeId;
     Pgx.ip_address := Pb.GetIfritAddress node;
     Pgx.public_id := Pb.GetId node;
     Pgx.https_address := Pb.GetHttpsAddress node;
     Pgx.port := Pb.GetPort node;
     Pgx.boottime := FormatRFC1123Z (Pb.AsTime (Pb.GetBootTime node)) |}.

Definition dbInsertNetworkNode `{TimeFormat} (nodeId : string)
    (node : option Pb.Node) (m : MembershipManagerUnit)
    : option error * MembershipManagerUnit :=
  if decide (nodeId = "") then (Some errNoNodeId, m)
  else
    match node with
    | None => (Some errNilNode, m)
    | Some _ =>
        let '((_, err), p') := Pgx.ExecUpsert (rowOf nodeId node) (pool m) in
        let m := setPool p' m in
        match err with
        | Some e => (Some e, logAt Log.Error e m)
        | None =>
            (None,
             logAt Log.Info ("Succsessfully inserted node with id '" +:+ nodeId +:+ "'" +:+ nl +:+ "'") m)
        end
    end.

Definition dbDeleteNetworkNode (nodeId : string) (m : MembershipManagerUnit)
    : option error * MembershipManagerUnit :=
  if decide (nodeId = "") then (Some "Node id is empty", m)
  else
    let '((commangTag, err), p') := Pgx.ExecDelete nodeId (pool m) in
    let m := setPool p' m in
    match err with
    | Some e => (Some e, logAt Log.Error e m)
    | None =>
        if decide (Pgx.RowsAffected commangTag <> 1) then
          let e := "Could not delete node with id '" +:+ nodeId +:+ "'" in
          (Some e, logAt Log.Error e m)
        else
          (None,
           logAt Log.Info ("Succsessfully deleted node with id '" +:+ nodeId +:+ "'" +:+ nl +:+ "'") m)
    end.

(** *** The reads of database.go *)

(** [time.Parse] with the layout [time.RFC1123Z], followed by
    [timestamppb.New]. *)
Class TimeParse := { ParseRFC1123Z : string -> error + Pb.Timestamp }.

(** The node the reads build from a row and its parsed boot time. *)
Definition nodeOf (r : Pgx.Row) (bTime : Pb.Timestamp) : Pb.Node :=
  {| Pb.Name := Pgx.node_name r;
     Pb.IfritAddress := Pgx.ip_address r;
     Pb.Id := Pgx.public_id r;
     Pb.HttpsAddress := Pgx.https_address r;
     Pb.Port := Pgx.port r;
     Pb.BootTime := Some bTime |}.

Definition dbSelectNetworkNode `{TimeParse} (nodeId : string)
    (m : MembershipManagerUnit)
    : (option Pb.Node * option error) * MembershipManagerUnit :=
  if decide (nodeId = "") then ((None, Some "Node id is empty"), m)
  else
    let '(res, p') := Pgx.QueryRowByName nodeId (pool m) in
    let m := setPool p' m in
    match res with
    | inl err =>
        if decide (err = Pgx.ErrNoRows) then
          ((None, None), logAt Log.Error err m)
        else ((None, Some err), m)
    | inr row =>
        match ParseRFC1123Z (Pgx.boottime row) with
        | inl err => ((None, Some err), logAt Log.Error err m)
        | inr bTime =>
            ((Some (nodeOf row bTime), None),
             logAt Log.Info
               ("Succsessfully selected node with id '" +:+ nodeId +:+ "'" +:+ nl +:+ "'") m)
        end
    end.

Definition dbNetworkNodeExists (nodeId : string) (m : MembershipManagerUnit)
    : (bool * option error) * MembershipManagerUnit :=
  if decide (nodeId = "") then ((false, Some errNoNodeId), m)
  else
    let '(res, p') := Pgx.QueryRowExists nodeId (pool m) in
    let m := setPool p' m in
    match res with
    | inl err => ((false, Some err), logAt Log.Error err m)
    | inr exists_ => ((exists_, None), m)
    end.

(** The loop of [dbSelectAllNetworkNodes] over the rows: a boot time that
    does not parse ends the whole listing with its error. Rows are typed
    here, so the [continue] after a failed [Scan] has no counterpart. *)
Fixpoint scanNodes `{TimeParse} (rows : list Pgx.Row) (nodes : gmap string Pb.Node)
    : error + gmap string Pb.Node :=
  match rows with
  | [] => inr nodes
  | r :: rest =>
      match ParseRFC1123Z (Pgx.boottime r) with
      | inl err => inl err
      | inr bTime => scanNodes rest (<[Pgx.node_name r := nodeOf r bTime]> nodes)
      end
  end.

Definition dbSelectAllNetworkNodes `{TimeParse} (m : MembershipManagerUnit)
    : (option (gmap string Pb.Node) * option error) * MembershipManagerUnit :=
  let '(res, p') := Pgx.QueryAll (pool m) in
  let m := setPool p' m in
  match res with
  | inl err => ((None, Some err), logAt Log.Error err m)
  | inr rows =>
      match scanNodes rows ∅ with
      | inl err => ((None, Some err), logAt Log.Error err m)
      | inr nodes => ((Some nodes, None), m)
      end
  end.

End MembershipManager.

(** ** core/directoryserver/directoryservercore.go *)
Module DirectoryServer.

(** The collaborators of the core are Go interfaces; each is a class over
    the state of its implementation, with the methods the handlers below
    call and those of the observation ledger and of delta resolution. A
    method is a transition on that state, so that an implementation may
    record the calls it receives. *)
Class gossipObserver (G : Type) := {
  InsertObservedGossip : option Pb.GossipMessage -> G -> option error * G;
  GossipIsObserved : option Pb.GossipMessage -> G -> bool
}.

Class datasetLookupService (L : Type) := {
  RemoveDatasetLookupEntry : string -> L -> option error * L;
  InsertDatasetLookupEntry : string -> string -> L -> option error * L;
  DatasetIdentifiers : L -> list string
}.

Class membershipManager (M : Type) := {
  AddNetworkNode : string -> option Pb.Node -> M -> option error * M
}.

Class datasetCheckoutManager (C : Type) := {
  DatasetIsCheckedOut : string -> C -> bool * C
}.

Record Config := mkConfig {
  ConfigName : string;
  Hostname : string;
  IfritTCPPort : Z
}.

Record DirectoryServerCore (L M C G : Type) := mkCore {
  config : Config;
  dsLookupService : L;
  memManager : M;
  checkoutManager : C;
  gossipObs : G;
  logs : list Log.Entry
}.

Arguments mkCore {L M C G}.
Arguments config {L M C G}.
Arguments dsLookupService {L M C G}.
Arguments memManager {L M C G}.
Arguments checkoutManager {L M C G}.
Arguments gossipObs {L M C G}.
Arguments logs {L M C G}.

Definition ErrDatasetLookupInsert : error :=
  "Inserting into dataset lookup collection failed".

Definition ErrUnknownMessageType : error := "Unknown message type".

Definition ErrAddNetworkNode : error := "Adding network node failed".

Section Core.

Context {L M C G : Type}.
Context `{Proto} `{Ifrit}.
Context `{datasetLookupService L} `{membershipManager M}.
Context `{datasetCheckoutManager C} `{gossipObserver G}.

Local Abbreviation Core := (DirectoryServerCore L M C G).

Definition setLookup (l : L) (d : Core) : Core :=
  {| config := config d; dsLookupService := l; memManager := memManager d;
     checkoutManager := checkoutManager d; gossipObs := gossipObs d; logs := logs d |}.

Definition setMembers (m : M) (d : Core) : Core :=
  {| config := config d; dsLookupService := dsLookupService d; memManager := m;
     checkoutManager := checkoutManager d; gossipObs := gossipObs d; logs := logs d |}.

Definition setCheckout (c : C) (d : Core) : Core :=
  {| config := config d; dsLookupService := dsLookupService d;
     memManager := memManager d; checkoutManager := c; gossipObs := gossipObs d;
     logs := logs d |}.

Definition setGossip (g : G) (d : Core) : Core :=
  {| config := config d; dsLookupService := dsLookupService d;
     memManager := memManager d; checkoutManager := checkoutManager d;
     gossipObs := g; logs := logs d |}.

Definition logAt (lvl : Log.Level) (msg : string) (d : Core) : Core :=
  {| config := config d; dsLookupService := dsLookupService d;
     memManager := memManager d; checkoutManager := checkoutManager d;
     gossipObs := gossipObs d; logs := logs d ++ [Log.mkEntry lvl msg] |}.

Definition logIfError (err : option error) (d : Core) : Core :=
  match err with
  | Some e => logAt Log.Error e d
  | None => d
  end.

(** The first statement of the function is [return nil]: the verification
    below it in the source is unreachable, and the message is returned as it
    came. *)
Definition verifyMessageSignature (msg : Pb.Message) : option error := None.

(** What the unreachable part of [verifyMessageSignature] computes, and
    what a sender checks after signing as [rollbackCheckout] does: the
    signature components against the marshalled message without its
    signature, under the sender's identity. It is what "the signature of
    the message verifies" means in the statements below; no handler calls
    it. *)
Definition signatureVerifies (msg : Pb.Message) : bool :=
  match Pb.Signature msg, Marshal (Pb.withSignature None msg) with
  | Some sig, inr data =>
      VerifySignature (Pb.R sig) (Pb.S sig) data (Pb.GetId (Pb.Sender msg))
  | _, _ => false
  end.

Definition resolveDatasetIdentifiersDeltas (newIdentifiers : option (list string))
    (node : option Pb.Node) (d : Core) : option error * Core :=
  match newIdentifiers with
  | None => (Some "newIdentifiers is nil", d)
  | Some _ =>
      match node with
      | None => (Some "node is nil", d)
      | Some _ => (None, d)   (* the reconciliation is commented out *)
      end
  end.

Definition messageHandler (data : bytes) (d : Core)
    : (option bytes * option error) * Core :=
  match Unmarshal data with
  | inl err => ((None, Some ""), logAt Log.Error err d)
  | inr msg =>
      match verifyMessageSignature msg with
      | Some err => ((None, Some err), logAt Log.Error err d)
      | None =>
          let '(failed, d) :=
            match Pb.type msg with
            | message.MSG_TYPE_ADD_DATASET_IDENTIFIER =>
                let '(err, l') :=
                  InsertDatasetLookupEntry (Pb.StringValue msg)
                    (Pb.GetName (Pb.Sender msg)) (dsLookupService d) in
                let d := setLookup l' d in
                match err with
                | Some e => (Some ErrDatasetLookupInsert, logAt Log.Error e d)
                | None => (None, d)
                end
            | message.MSG_SYNCHRONIZE_DATASET_IDENTIFIERS =>
                let '(err, d) :=
                  resolveDatasetIdentifiersDeltas (Pb.StringSlice msg)
                    (Pb.Sender msg) d in
                (err, logIfError err d)
            | t =>
                (Some ErrUnknownMessageType,
                 logAt Log.Error
                   ("Unexpected message type '" +:+ message.typeString t +:+ "'") d)
            end in
          match failed with
          | Some e => ((None, Some e), d)
          | None =>
              match Marshal (Pb.ofType message.MSG_TYPE_OK) with
              | inl err => ((None, Some err), logAt Log.Error err d)
              | inr resp => ((Some resp, None), d)
              end
          end
      end
  end.

(** Adds the given node to the network and returns the address and the
    identity of the directory server. *)
Definition Handshake (node : option Pb.Node) (d : Core)
    : (option Pb.HandshakeResponse * option error) * Core :=
  match node with
  | None =>
      ((None, Some "rpc error: code = InvalidArgument desc = pb node is nil"), d)
  | Some _ =>
      let '(err, m') := AddNetworkNode (Pb.GetName node) node (memManager d) in
      let d := setMembers m' d in
      match err with
      | Some e => ((None, Some e), d)
      | None =>
          let d :=
            logAt Log.Info
              ("Added '" +:+ Pb.GetName node +:+ "' to map with Ifrit IP '"
               +:+ Pb.GetIfritAddress node +:+ "' and HTTPS address '"
               +:+ Pb.GetHttpsAddress node +:+ "'" +:+ nl) d in
          ((Some {| Pb.Ip := Hostname (config d) +:+ ":" +:+ pretty (IfritTCPPort (config d));
                    Pb.RespId := String.list_byte_of_string IfritId |},
            None), d)
      end
  end.

Definition pbNode (now : Pb.Timestamp) (d : Core) : Pb.Node :=
  {| Pb.Name := ConfigName (config d);
     Pb.IfritAddress := Hostname (config d) +:+ ":" +:+ pretty (IfritTCPPort (config d));
     Pb.Id := String.list_byte_of_string IfritId;
     Pb.HttpsAddress := "";
     Pb.Port := 0;
     Pb.BootTime := Some now |}.

(** [rollbackCheckout] up to its [SendTo]: the bytes it puts on the wire.
    The wait for the response races a context and is not modelled. *)
Definition rollbackCheckoutRequest (now : Pb.Timestamp) (dataset : string)
    (d : Core) : error + bytes :=
  let msg :=
    {| Pb.type := message.MSG_TYPE_ROLLBACK_CHECKOUT;
       Pb.Sender := Some (pbNode now d);
       Pb.StringValue := dataset;
       Pb.StringSlice := None;
       Pb.Signature := None;
       Pb.gossipMessage := None |} in
  match Marshal msg with
  | inl err => inl err
  | inr data =>
      match Sign data with
      | inl err => inl err
      | inr (r, s) =>
          Marshal (Pb.withSignature (Some {| Pb.R := r; Pb.S := s |}) msg)
      end
  end.

(** Apply policy to checked out dataset: the publication inside the [if]
    is commented out, the query of the checkout manager remains. *)
Definition applyPolicy (newPolicy : option Pb.Policy) (d : Core)
    : option error * Core :=
  match newPolicy with
  | None => (Some "Policy to be applied is nil", d)
  | Some _ =>
      let datasetId := Pb.GetDatasetIdentifier newPolicy in
      let '(_, c') := DatasetIsCheckedOut datasetId (checkoutManager d) in
      (None, setCheckout c' d)
  end.

(** The [for ... range] loop of [processPolicyBatch]. *)
Fixpoint applyPolicies (body : list Pb.GossipMessageBody) (d : Core) : Core :=
  match body with
  | [] => d
  | m :: rest =>
      let '(err, d) := applyPolicy (Pb.GetPolicy m) d in
      applyPolicies rest (logIfError err d)
  end.

(** The dataset identifiers of the entries that carry a policy, in order. *)
Definition policyTargets (body : list Pb.GossipMessageBody) : list string :=
  Pb.DatasetIdentifier <$> omap Pb.GetPolicy body.

(** One error entry for each entry without a policy. *)
Definition nilPolicyErrors (body : list Pb.GossipMessageBody) : list Log.Entry :=
  (fun _ => Log.mkEntry Log.Error "Policy to be applied is nil")
    <$> filter (fun m => Pb.GetPolicy m = None) body.

Definition processPolicyBatch (msg : option Pb.Message) (d : Core)
    : (option bytes * option error) * Core :=
  match msg with
  | None =>
      let err := "Pb message is nil" in
      ((None, Some err), logAt Log.Error err d)
  | Some msg =>
      match Pb.gossipMessage msg with
      | None =>
          let err := "Gossip message is nil" in
          ((None, Some err), logAt Log.Error err d)
      | Some gspMsg =>
          match Pb.GetGossipMessageBody (Some gspMsg) with
          | None =>
              let err := "Gossip message body is nil" in
              ((None, Some err), logAt Log.Error err d)
          | Some body => ((None, None), applyPolicies body d)
          end
      end
  end.

(** The [fmt.Printf] of the default case goes to the standard output, which
    is not part of the state. *)
Definition gossipMessageHandler (data : bytes) (d : Core)
    : (option bytes * option error) * Core :=
  match Unmarshal data with
  | inl err => ((None, Some err), logAt Log.Error err d)
  | inr msg =>
      let d := logAt Log.Info ("Directory server got gossip message" +:+ nl) d in
      let d :=
        match verifyMessageSignature msg with
        | Some err => logAt Log.Warn err d
        | None => d
        end in
      (* Observe all gossip messages *)
      let '(err, g') := InsertObservedGossip (Pb.gossipMessage msg) (gossipObs d) in
      let d := logIfError err (setGossip g' d) in
      match Pb.type msg with
      | message.MSG_TYPE_PROBE => ((None, None), d)
      | message.MSG_TYPE_POLICY_STORE_UPDATE => processPolicyBatch (Some msg) d
      | _ => ((None, None), d)
      end
  end.

(** What the [select] of [rollbackCheckout] receives: a value from the
    response channel, nil included, or the end of the context. *)
Inductive RollbackOutcome :=
  | ResponseReceived (resp : option bytes)
  | ContextDone.

(** [rollbackCheckout], given the case its [select] takes. The request is
    built and sent as in [rollbackCheckoutRequest]; [nodeAddr] is only the
    destination of the send. *)
Definition rollbackCheckout (now : Pb.Timestamp) (nodeAddr dataset : string)
    (outcome : RollbackOutcome) (d : Core) : option error :=
  match rollbackCheckoutRequest now dataset d with
  | inl err => Some err
  | inr _ =>
      match outcome with
      | ResponseReceived None => None
      | ResponseReceived (Some data) =>
          match Unmarshal data with
          | inl err => Some err
          | inr respMsg => verifyMessageSignature respMsg
          end
      | ContextDone => Some "Could not verify dataset checkout rollback"
      end
  end.

End Core.

End DirectoryServer.

(** ** The header helpers of the node's HTTP server (package [node]) *)
Module NodeHttp.

(** [strings.Split] with a separator of one byte: the pieces between the
    occurrences of the separator, one more than there are occurrences. *)
Fixpoint splitOn (sep : Ascii.ascii) (s : string) : list string :=
  match s with
  | EmptyString => [EmptyString]
  | String c rest =>
      if decide (c = sep) then EmptyString :: splitOn sep rest
      else
        match splitOn sep rest with
        | piece :: pieces => String c piece :: pieces
        | [] => [String c EmptyString]
        end
  end.

Definition space : Ascii.ascii := Ascii.ascii_of_nat 32.

(** [getBearerToken], on the value of the Authorization header (the empty
    string when the request has none). *)
Definition getBearerToken (authHeader : string) : error + bytes :=
  let authHeaderContent := splitOn space authHeader in
  if decide (length authHeaderContent <> 2%nat) then
    inl "Token not provided or malformed"
  else
    match authHeaderContent !! 1%nat with
    | Some token => inr (String.list_byte_of_string token)
    | None => inl "Token not provided or malformed"
    end.

(** A [range] over a Go map that assigns each pair into [dest]. *)
Definition assignAll (src dest : gmap string (list string)) : gmap string (list string) :=
  map_fold (fun k v acc => <[k := v]> acc) dest src.

Definition copyHeaders (h : gmap string (list string)) : gmap string (list string) :=
  assignAll h ∅.

Definition setHeaders (src dest : gmap string (list string)) : gmap string (list string) :=
  assignAll src dest.

(** How often the byte [sep] occurs in [s]. *)
Fixpoint occurrences (sep : Ascii.ascii) (s : string) : nat :=
  match s with
  | EmptyString => 0
  | String c rest =>
      (if decide (c = sep) then 1 else 0) + occurrences sep rest
  end%nat.

(** The pieces put together again, with [sep] between them. *)
Fixpoint join (sep : Ascii.ascii) (pieces : list string) : string :=
  match pieces with
  | [] => EmptyString
  | [piece] => piece
  | piece :: rest => piece +:+ String sep (join sep rest)
  end.

End NodeHttp.

(** ** In-memory collaborators

    Implementations of the interfaces above that run inside Rocq: they
    instantiate the general statements at concrete inputs. *)
Module InMemory.

(** A codec given by a finite code table: [Unmarshal] reads the table from
    bytes to message, [Marshal] from message to bytes; nodes are not
    marshalled by the handlers that use it. *)
Definition tableUnmarshal (tbl : list (bytes * Pb.Message)) (data : bytes)
    : error + Pb.Message :=
  match list_find (fun e => e.1 = data) tbl with
  | Some (_, e) => inr e.2
  | None => inl "proto: cannot parse invalid wire-format data"
  end.

Definition tableMarshal (tbl : list (bytes * Pb.Message)) (m : Pb.Message)
    : error + bytes :=
  match list_find (fun e => e.2 = m) tbl with
  | Some (_, e) => inr e.1
  | None => inl "proto: Marshal called with a message outside the code table"
  end.

Definition tableProto (tbl : list (bytes * Pb.Message)) : Proto :=
  {| Marshal := tableMarshal tbl;
     Unmarshal := tableUnmarshal tbl;
     MarshalNode := fun _ => inl "proto: Marshal called with nil" |}.

(** A codec for nodes alone: a node is marshalled to the bytes of its name. *)
Definition nodeProto : Proto :=
  {| Marshal := fun _ => inl "proto: not a node";
     Unmarshal := fun _ => inl "proto: not a node";
     MarshalNode := fun n =>
       match n with
       | Some n => inr (String.list_byte_of_string (Pb.Name n))
       | None => inl "proto: Marshal called with nil"
       end |}.

(** A signature scheme without secrets: the signature of [data] is [data]
    and its reverse, whoever signs. *)
Definition mirrorIfrit : Ifrit :=
  {| IfritId := "directory";
     Sign := fun data => inr (data, reverse data);
     VerifySignature := fun r s data _ =>
       bool_decide (r = data) && bool_decide (s = reverse data) |}.

(** A stand-in for the layout: the seconds of the timestamp in decimal. *)
Definition secondsFormat : TimeFormat :=
  {| FormatRFC1123Z := fun t => pretty (Pb.Seconds t) |}.

(** Modelled from the spec: the implementation of the core's
    [datasetLookupService] is not among the sources. A lookup entry maps a
    dataset identifier to the name of the node that owns it, the last
    writer wins, and removing an absent entry is an error. *)
#[global] Instance lookupTable : DirectoryServer.datasetLookupService (gmap string string) :=
  {| DirectoryServer.RemoveDatasetLookupEntry := fun id l =>
       match l !! id with
       | Some _ => (None, delete id l)
       | None => (Some "not found", l)
       end;
     DirectoryServer.InsertDatasetLookupEntry := fun id nodeName l =>
       (None, <[id := nodeName]> l);
     DirectoryServer.DatasetIdentifiers := fun l => (map_to_list l).*1 |}.

(** Modelled from the spec: [AddNetworkNode] of the membership manager is
    not among the sources. The store write of database.go is its
    authoritative step and its error is the error returned. *)
#[global] Instance membershipUnit `{TimeFormat}
  : DirectoryServer.membershipManager MembershipManager.MembershipManagerUnit :=
  {| DirectoryServer.AddNetworkNode := MembershipManager.dbInsertNetworkNode |}.

(** A checkout manager that records the queries it receives. *)
Record Checkouts := mkCheckouts {
  checkedOut : gset string;
  queries : list string
}.

#[global] Instance checkouts : DirectoryServer.datasetCheckoutManager Checkouts :=
  {| DirectoryServer.DatasetIsCheckedOut := fun id c =>
       (bool_decide (id ∈ checkedOut c),
        {| checkedOut := checkedOut c; queries := queries c ++ [id] |}) |}.

(** Modelled from the spec: the observation ledger is not among the
    sources. It records the identifier of every gossip message inserted
    and tests membership. *)
#[global] Instance ledger : DirectoryServer.gossipObserver (gset string) :=
  {| DirectoryServer.InsertObservedGossip := fun g seen =>
       match g with
       | Some g => (None, {[ Pb.GossipMessageID g ]} ∪ seen)
       | None => (Some "Gossip message is nil", seen)
       end;
     DirectoryServer.GossipIsObserved := fun g seen =>
       match g with
       | Some g => bool_decide (Pb.GossipMessageID g ∈ seen)
       | None => false
       end |}.

(** Modelled from the spec: the persistent side of the dataset lookup
    service is not among the sources. The table maps a dataset identifier
    to its node; a nil node cannot be stored. *)
#[global] Instance nodeTable : DatasetManager.LookupStore (gmap string Pb.Node) :=
  {| DatasetManager.dbDatasetNodeExists := fun id db =>
       (bool_decide (is_Some (db !! id)), db);
     DatasetManager.dbSelectDatasetNode := fun id db => (db !! id, db);
     DatasetManager.dbInsertDatasetNode := fun id node db =>
       match node with
       | Some n => (None, <[id := n]> db)
       | None => (Some "node is nil", db)
       end |}.

(** The inverse of [nodeProto] on nodes: the bytes are the name, the other
    fields are empty. *)
Definition nameProtoNode : DatasetManager.ProtoNode :=
  {| DatasetManager.UnmarshalNode := fun bs =>
       inr {| Pb.Name := String.string_of_list_byte bs; Pb.IfritAddress := "";
              Pb.Id := []; Pb.HttpsAddress := ""; Pb.Port := 0;
              Pb.BootTime := None |} |}.

(** Modelled from the spec: the rest of the persistent side of the dataset
    lookup service. Removing an absent identifier is an error; the
    identifiers are the keys of the table. *)
#[global] Instance nodeTableAdmin : DatasetManager.LookupStoreAdmin (gmap string Pb.Node) :=
  {| DatasetManager.dbRemoveDatasetNode := fun id db =>
       match db !! id with
       | Some _ => (None, delete id db)
       | None => (Some "not found", db)
       end;
     DatasetManager.dbSelectDatasetIdentifiers := fun db =>
       ((map_to_list db).*1, db) |}.

(** A store that is down: every write fails and nothing is found. *)
Definition downStore : DatasetManager.LookupStore unit :=
  {| DatasetManager.dbDatasetNodeExists := fun _ db => (false, db);
     DatasetManager.dbSelectDatasetNode := fun _ db => (None, db);
     DatasetManager.dbInsertDatasetNode := fun _ _ db =>
       (Some "failed to connect to database", db) |}.

(** A parser for [secondsFormat]: the timestamp of 1700000000 seconds for
    its text, an error for every other text. *)
Definition secondsParse : MembershipManager.TimeParse :=
  {| MembershipManager.ParseRFC1123Z := fun s =>
       if decide (s = "1700000000") then inr (Pb.mkTimestamp 1700000000 0)
       else inl "parsing time: cannot parse" |}.

(** A lookup service that refuses every write. *)
Definition refusingLookup : DirectoryServer.datasetLookupService unit :=
  {| DirectoryServer.RemoveDatasetLookupEntry := fun _ l => (Some "read-only transaction", l);
     DirectoryServer.InsertDatasetLookupEntry := fun _ _ l => (Some "read-only transaction", l);
     DirectoryServer.DatasetIdentifiers := fun _ => [] |}.

End InMemory.


(** ** Concrete states and messages

    The states, nodes, messages and code table at which the statements
    below are evaluated. *)
Module Scenario.

Definition nodeN : Pb.Node :=
  {| Pb.Name := "N"; Pb.IfritAddress := "10.0.0.7:8000"; Pb.Id := [];
     Pb.HttpsAddress := "10.0.0.7:8443"; Pb.Port := 8443; Pb.BootTime := None |}.

(** The empty identifier is present in the cache and in the store. *)
Definition emptyKeyService : DatasetManager.DatasetLookupService (gmap string Pb.Node) :=
  {| DatasetManager.redisClient := Some {| Redis.kv := {[ "" := String.list_byte_of_string "N" ]};
                            Redis.faults := [] |};
     DatasetManager.datasetLookupDB := {[ "" := nodeN ]};
     DatasetManager.logs := [] |}.

(** Dataset "a" is in the store only; the cache answers the probe and
    refuses the next command. *)
Definition refusedWriteService : DatasetManager.DatasetLookupService (gmap string Pb.Node) :=
  {| DatasetManager.redisClient := Some {| Redis.kv := ∅; Redis.faults := [false; true] |};
     DatasetManager.datasetLookupDB := {[ "a" := nodeN ]};
     DatasetManager.logs := [] |}.

(** Dataset "a" is in the store only, and the cache works. *)
Definition coldCacheService : DatasetManager.DatasetLookupService (gmap string Pb.Node) :=
  {| DatasetManager.redisClient := Some {| Redis.kv := ∅; Redis.faults := [] |};
     DatasetManager.datasetLookupDB := {[ "a" := nodeN ]};
     DatasetManager.logs := [] |}.

Definition nodeN1 : Pb.Node :=
  {| Pb.Name := "n1"; Pb.IfritAddress := "10.0.0.1:8000"; Pb.Id := [];
     Pb.HttpsAddress := "10.0.0.1:8443"; Pb.Port := 8443;
     Pb.BootTime := Some (Pb.mkTimestamp 1600000000 0) |}.

(** The same node after a restart at another address. *)
Definition nodeN1' : Pb.Node :=
  {| Pb.Name := "n1"; Pb.IfritAddress := "10.0.0.9:9000"; Pb.Id := [];
     Pb.HttpsAddress := "10.0.0.9:9443"; Pb.Port := 9443;
     Pb.BootTime := Some (Pb.mkTimestamp 1700000000 0) |}.

Definition emptyUnit : MembershipManager.MembershipManagerUnit :=
  {| MembershipManager.pool := {| Pgx.table := []; Pgx.faults := [] |};
     MembershipManager.logs := [] |}.

(** A table with the one row of node "n1". *)
Definition oneNodeUnit : MembershipManager.MembershipManagerUnit :=
  {| MembershipManager.pool :=
       {| Pgx.table :=
            [ {| Pgx.node_name := "n1"; Pgx.ip_address := "10.0.0.1:8000";
                 Pgx.public_id := []; Pgx.https_address := "10.0.0.1:8443";
                 Pgx.port := 8443; Pgx.boottime := "1600000000" |} ];
          Pgx.faults := [] |};
     MembershipManager.logs := [] |}.

(** The directory server with empty collaborators. *)
Definition core0
  : DirectoryServer.DirectoryServerCore (gmap string string)
      MembershipManager.MembershipManagerUnit InMemory.Checkouts (gset string) :=
  {| DirectoryServer.config :=
       {| DirectoryServer.ConfigName := "directory";
          DirectoryServer.Hostname := "127.0.1.1";
          DirectoryServer.IfritTCPPort := 5000 |};
     DirectoryServer.dsLookupService := ∅;
     DirectoryServer.memManager := emptyUnit;
     DirectoryServer.checkoutManager :=
       {| InMemory.checkedOut := ∅; InMemory.queries := [] |};
     DirectoryServer.gossipObs := ∅;
     DirectoryServer.logs := [] |}.

(** The lookup table of the delta-resolution example: a, b, c and the
    stale x belong to node N, y belongs to node M. *)
Definition staleCore
  : DirectoryServer.DirectoryServerCore (gmap string string)
      MembershipManager.MembershipManagerUnit InMemory.Checkouts (gset string) :=
  {| DirectoryServer.config := DirectoryServer.config core0;
     DirectoryServer.dsLookupService :=
       <["a" := "N"]> (<["b" := "N"]> (<["c" := "N"]> (<["x" := "N"]> {[ "y" := "M" ]})));
     DirectoryServer.memManager := emptyUnit;
     DirectoryServer.checkoutManager :=
       {| InMemory.checkedOut := ∅; InMemory.queries := [] |};
     DirectoryServer.gossipObs := ∅;
     DirectoryServer.logs := [] |}.

(** Node N announces "dataset-1". *)
Definition announce : Pb.Message :=
  {| Pb.type := message.MSG_TYPE_ADD_DATASET_IDENTIFIER;
     Pb.Sender := Some nodeN; Pb.StringValue := "dataset-1";
     Pb.StringSlice := None; Pb.Signature := None; Pb.gossipMessage := None |}.

(** The announcement with the signature of its marshalled form, the
    single byte 01 in the code table below. *)
Definition announceSigned : Pb.Message :=
  Pb.withSignature (Some {| Pb.R := [Byte.x01]; Pb.S := [Byte.x01] |}) announce.

(** The signed announcement with its payload changed after signing. *)
Definition tamperedUnsigned : Pb.Message :=
  {| Pb.type := message.MSG_TYPE_ADD_DATASET_IDENTIFIER;
     Pb.Sender := Some nodeN; Pb.StringValue := "dataset-X";
     Pb.StringSlice := None; Pb.Signature := None; Pb.gossipMessage := None |}.

Definition tampered : Pb.Message :=
  Pb.withSignature (Pb.Signature announceSigned) tamperedUnsigned.

(** Node N synchronizes its identifiers a, b, c. *)
Definition synchronize : Pb.Message :=
  {| Pb.type := message.MSG_SYNCHRONIZE_DATASET_IDENTIFIERS;
     Pb.Sender := Some nodeN; Pb.StringValue := "";
     Pb.StringSlice := Some ["a"; "b"; "c"];
     Pb.Signature := None; Pb.gossipMessage := None |}.

(** Gossip message g1 with one policy, for dataset d1. *)
Definition policyUpdate : Pb.Message :=
  {| Pb.type := message.MSG_TYPE_POLICY_STORE_UPDATE;
     Pb.Sender := None; Pb.StringValue := ""; Pb.StringSlice := None;
     Pb.Signature := None;
     Pb.gossipMessage :=
       Some {| Pb.GossipMessageID := "g1";
               Pb.body := Some [ {| Pb.policy := Some (Pb.mkPolicy "d1" true) |} ] |} |}.

(** A batch whose second entry has no policy. *)
Definition mixedBatch : list Pb.GossipMessageBody :=
  [ {| Pb.policy := Some (Pb.mkPolicy "d1" true) |};
    {| Pb.policy := None |};
    {| Pb.policy := Some (Pb.mkPolicy "d2" false) |} ].

Definition mixedUpdate : Pb.Message :=
  {| Pb.type := message.MSG_TYPE_POLICY_STORE_UPDATE;
     Pb.Sender := None; Pb.StringValue := ""; Pb.StringSlice := None;
     Pb.Signature := None;
     Pb.gossipMessage :=
       Some {| Pb.GossipMessageID := "g2"; Pb.body := Some mixedBatch |} |}.

(** The rollback request of the directory server for "dataset-1". *)
Definition rollback : Pb.Message :=
  {| Pb.type := message.MSG_TYPE_ROLLBACK_CHECKOUT;
     Pb.Sender :=
       Some {| Pb.Name := "directory"; Pb.IfritAddress := "127.0.1.1:5000";
               Pb.Id := String.list_byte_of_string "directory";
               Pb.HttpsAddress := ""; Pb.Port := 0;
               Pb.BootTime := Some (Pb.mkTimestamp 1700000000 0) |};
     Pb.StringValue := "dataset-1"; Pb.StringSlice := None;
     Pb.Signature := None; Pb.gossipMessage := None |}.

Definition rollbackSigned : Pb.Message :=
  Pb.withSignature (Some {| Pb.R := [Byte.x08]; Pb.S := [Byte.x08] |}) rollback.

(** The code table of the wire. *)
Definition wire : list (bytes * Pb.Message) :=
  [ ([Byte.x01], announce);
    ([Byte.x02], announceSigned);
    ([Byte.x03], tamperedUnsigned);
    ([Byte.x04], tampered);
    ([Byte.x05], Pb.ofType message.MSG_TYPE_OK);
    ([Byte.x06], synchronize);
    ([Byte.x07], policyUpdate);
    ([Byte.x08], rollback);
    ([Byte.x09], rollbackSigned) ].

Definition codec : Proto := InMemory.tableProto wire.

(** A lookup service whose cache refuses every command. *)
Definition cacheDownService : DatasetManager.DatasetLookupService (gmap string Pb.Node) :=
  {| DatasetManager.redisClient :=
       Some {| Redis.kv := ∅; Redis.faults := [true; true; true] |};
     DatasetManager.datasetLookupDB := ∅;
     DatasetManager.logs := [] |}.

(** A node that has a name and nothing else. *)
Definition bareNode : Pb.Node :=
  {| Pb.Name := "N"; Pb.IfritAddress := ""; Pb.Id := [];
     Pb.HttpsAddress := ""; Pb.Port := 0; Pb.BootTime := None |}.

(** A working, empty cache in front of the store that is down. *)
Definition downStoreService : DatasetManager.DatasetLookupService unit :=
  {| DatasetManager.redisClient := Some {| Redis.kv := ∅; Redis.faults := [] |};
     DatasetManager.datasetLookupDB := tt;
     DatasetManager.logs := [] |}.

(** Dataset "a" is in the cache and in the store. *)
Definition warmService : DatasetManager.DatasetLookupService (gmap string Pb.Node) :=
  {| DatasetManager.redisClient :=
       Some {| Redis.kv := {[ "a" := String.list_byte_of_string "N" ]};
               Redis.faults := [] |};
     DatasetManager.datasetLookupDB := {[ "a" := bareNode ]};
     DatasetManager.logs := [] |}.

(** A table with the one row of node "n1" after its restart. *)
Definition restartedUnit : MembershipManager.MembershipManagerUnit :=
  {| MembershipManager.pool :=
       {| Pgx.table :=
            [ {| Pgx.node_name := "n1"; Pgx.ip_address := "10.0.0.9:9000";
                 Pgx.public_id := []; Pgx.https_address := "10.0.0.9:9443";
                 Pgx.port := 9443; Pgx.boottime := "1700000000" |} ];
          Pgx.faults := [] |};
     MembershipManager.logs := [] |}.

(** The directory server over the lookup service that refuses writes. *)
Definition refusingCore
  : DirectoryServer.DirectoryServerCore unit
      MembershipManager.MembershipManagerUnit InMemory.Checkouts (gset string) :=
  {| DirectoryServer.config := DirectoryServer.config core0;
     DirectoryServer.dsLookupService := tt;
     DirectoryServer.memManager := emptyUnit;
     DirectoryServer.checkoutManager :=
       {| InMemory.checkedOut := ∅; InMemory.queries := [] |};
     DirectoryServer.gossipObs := ∅;
     DirectoryServer.logs := [] |}.

(** The last two entries of [mixedBatch] as a gossip message of their own. *)
Definition tailUpdate : Pb.Message :=
  {| Pb.type := message.MSG_TYPE_POLICY_STORE_UPDATE;
     Pb.Sender := None; Pb.StringValue := ""; Pb.StringSlice := None;
     Pb.Signature := None;
     Pb.gossipMessage :=
       Some {| Pb.GossipMessageID := "g3";
               Pb.body := Some [ {| Pb.policy := None |};
                                 {| Pb.policy := Some (Pb.mkPolicy "d2" false) |} ] |} |}.

End Scenario.

(** The part of [DatasetNodeExists] after a probe of [r] that did not
    answer: the store is asked, and a node found there is written back. *)
Ltac store_answer k d r :=
  let ex := fresh "ex" in
  let db1 := fresh "db1" in
  let db2 := fresh "db2" in
  let n := fresh "n" in
  let bs := fresh "bs" in
  let Hm := fresh "Hm" in
  let nb := fresh "nb" in
  destruct (DatasetManager.dbDatasetNodeExists k (DatasetManager.datasetLookupDB d)) as [ex db1];
  simpl; destruct ex; simpl;
  [ destruct (DatasetManager.dbSelectDatasetNode k db1) as [[n|] db2]; simpl;
    [ destruct (MarshalNode (Some n)) as [?|bs] eqn:Hm;
      [ split; [done|]; intros ? ? ? [= <-] _ [= <-] ?; congruence
      | split;
        [ by destruct (Redis.Set_ k bs (Redis.advance r))
        | intros ? ? nb [= <-] _ [= <-] ?;
          assert (nb = bs) as -> by congruence;
          unfold Redis.Set_;
          destruct (Redis.nextFault (Redis.advance r)); simpl;
          (eexists; split; [done|]; split; [done|]);
          [ done | intros _; simpl; apply lookup_insert_eq ] ] ]
    | split; [done|]; intros ? ? ? _ _ [=] ]
  | split; [done|]; intros ? ? ? _ [=] ].

(** * Properties of the dataset lookup service *)
Module DatasetManagerProofs.

Import DatasetManager Scenario.

Section Service.

Context `{Proto} `{LookupStore DB}.

Implicit Types (d : DatasetLookupService DB) (k : string).

Lemma logIfError_db err d : datasetLookupDB (logIfError err d) = datasetLookupDB d.
Proof. by destruct err. Qed.

Lemma logIfError_redis err d : redisClient (logIfError err d) = redisClient d.
Proof. by destruct err. Qed.

Lemma cacheInsertDatasetNode_db k node r d :
  datasetLookupDB (cacheInsertDatasetNode k node r d).2 = datasetLookupDB d.
Proof.
  unfold cacheInsertDatasetNode.
  destruct (MarshalNode node); [done|].
  by destruct (Redis.Set_ _ _ _).
Qed.

(** The probe of the cache, in terms of [cacheHit]. *)
Lemma cacheDatasetNodeExists_spec k r :
  cacheDatasetNodeExists k r =
    (if Redis.nextFault r then (false, Some Redis.errConn)
     else (bool_decide (is_Some (Redis.kv r !! k)), None),
     Redis.advance r).
Proof.
  unfold cacheDatasetNodeExists, Redis.Exists.
  destruct (Redis.nextFault r); [done|]. simpl.
  by case_bool_decide.
Qed.

(** C10: for the empty identifier [DatasetNodeExists] answers [false] at
    once. Neither the cache (its key space and its fault schedule) nor the
    store is touched, whatever their implementation and state; the rejection
    leaves one error entry in the log and nothing else reaches the caller. *)
Theorem DatasetNodeExists_empty_identifier d :
  (DatasetNodeExists "" d).1 = false
  /\ redisClient (DatasetNodeExists "" d).2 = redisClient d
  /\ datasetLookupDB (DatasetNodeExists "" d).2 = datasetLookupDB d
  /\ logs (DatasetNodeExists "" d).2 =
       (logs d ++ [Log.mkEntry Log.Error "Dataset identifier must not be empty"])%list.
Proof. unfold DatasetNodeExists. by rewrite decide_True. Qed.

(** C6: [InsertDatasetNode] returns exactly the error of the store write,
    and the store write is always made, on the store as it was before the
    call: neither a cache that is absent, nor one whose write fails, nor a
    node that cannot be marshalled changes the error or the write. *)
Theorem InsertDatasetNode_returns_store_error k node d :
  (InsertDatasetNode k node d).1 = (dbInsertDatasetNode k node (datasetLookupDB d)).1
  /\ datasetLookupDB (InsertDatasetNode k node d).2
       = (dbInsertDatasetNode k node (datasetLookupDB d)).2.
Proof.
  unfold InsertDatasetNode.
  set (d1 := match redisClient d with Some r => _ | None => d end).
  assert (Hdb : datasetLookupDB d1 = datasetLookupDB d).
  { subst d1. destruct (redisClient d) as [r|]; [|done].
    pose proof (cacheInsertDatasetNode_db k node r d) as Hc.
    destruct (cacheInsertDatasetNode k node r d) as [err d']. simpl in Hc.
    by rewrite logIfError_db. }
  rewrite Hdb.
  by destruct (dbInsertDatasetNode k node (datasetLookupDB d)).
Qed.

(** C5, as amended: for a non-empty identifier the cache is probed first
    and a hit is answered [true] after that one probe, without a call to the
    store; on a miss, a cache error or without a cache the answer is the
    store's; and when the store has the node and the cache did not answer,
    a write of the marshalled node under [k] is sent to the cache after the
    probe, so that the cache holds it whenever that write is accepted. *)
Theorem DatasetNodeExists_cache_then_store k d :
  k <> "" ->
  (cacheHit k d = true ->
     (DatasetNodeExists k d).1 = true
     /\ redisClient (DatasetNodeExists k d).2 = Redis.advance <$> redisClient d
     /\ datasetLookupDB (DatasetNodeExists k d).2 = datasetLookupDB d)
  /\ (cacheHit k d = false ->
     (DatasetNodeExists k d).1 = (dbDatasetNodeExists k (datasetLookupDB d)).1
     /\ forall r node nodeBytes,
          redisClient d = Some r ->
          (dbDatasetNodeExists k (datasetLookupDB d)).1 = true ->
          (dbSelectDatasetNode k (dbDatasetNodeExists k (datasetLookupDB d)).2).1
            = Some node ->
          MarshalNode (Some node) = inr nodeBytes ->
          exists r',
            redisClient (DatasetNodeExists k d).2 = Some r'
            /\ Redis.faults r' = tail (tail (Redis.faults r))
            /\ (Redis.nextFault (Redis.advance r) = false ->
                Redis.kv r' !! k = Some nodeBytes)).
Proof.
  intros Hk. unfold DatasetNodeExists, cacheHit.
  rewrite decide_False by done.
  destruct (redisClient d) as [r|] eqn:Hr.
  - rewrite cacheDatasetNodeExists_spec.
    destruct (Redis.nextFault r) eqn:Hf; simpl.
    + split; [done|]. intros _. store_answer k d r.
    + case_bool_decide as Hin; simpl.
      * split; [|done]. by intros _.
      * split; [done|]. intros _. store_answer k d r.
  - split; [done|]. intros _.
    destruct (dbDatasetNodeExists k (datasetLookupDB d)) as [ex db1] eqn:Hex.
    unfold setDB; simpl. rewrite Hr.
    destruct ex; simpl; (split; [done|]); by intros.
Qed.

End Service.

#[local] Existing Instance InMemory.nodeProto.

(** C5 as stated fails in two places. With the empty identifier in the
    cache and in the store, the answer is [false]: the cache hit is not
    answered [true] and the answer is not the store's. And for a dataset
    found only in the store the answer is [true] while the cache entry is
    not repopulated when the cache refuses the write. *)
Lemma DatasetNodeExists_not_for_every_identifier :
  (cacheHit "" emptyKeyService = true
   /\ (dbDatasetNodeExists "" (datasetLookupDB emptyKeyService)).1 = true
   /\ (DatasetNodeExists "" emptyKeyService).1 = false)
  /\ (cacheHit "a" refusedWriteService = false
      /\ (dbDatasetNodeExists "a" (datasetLookupDB refusedWriteService)).1 = true
      /\ (DatasetNodeExists "a" refusedWriteService).1 = true
      /\ (Redis.kv <$> redisClient (DatasetNodeExists "a" refusedWriteService).2) = Some ∅).
Proof. repeat split; vm_compute; reflexivity. Qed.

(** With the cache down, an insert succeeds, the store holds the node and
    the failure of the cache is in the log. *)
Example InsertDatasetNode_cache_down :
  (InsertDatasetNode "a" (Some nodeN) cacheDownService).1 = None
  /\ datasetLookupDB (InsertDatasetNode "a" (Some nodeN) cacheDownService).2 !! "a"
       = Some nodeN
  /\ logs (InsertDatasetNode "a" (Some nodeN) cacheDownService).2
       = [Log.mkEntry Log.Info "Inserting into cache!";
          Log.mkEntry Log.Error Redis.errConn].
Proof. repeat split; by vm_compute. Qed.

(** The amended C5 at dataset "a", found only in the store: the answer is
    the store's [true] and the cache holds the node afterwards. *)
Lemma DatasetNodeExists_cache_then_store_witness :
  (DatasetNodeExists "a" coldCacheService).1 = true
  /\ exists r',
       redisClient (DatasetNodeExists "a" coldCacheService).2 = Some r'
       /\ Redis.kv r' !! "a" = Some (String.list_byte_of_string "N").
Proof.
  destruct (DatasetNodeExists_cache_then_store "a" coldCacheService) as [_ Hmiss];
    [done|].
  destruct (Hmiss eq_refl) as [Hans Hrepair].
  split; [by rewrite Hans|].
  destruct (Hrepair {| Redis.kv := ∅; Redis.faults := [] |} nodeN
              (String.list_byte_of_string "N") eq_refl eq_refl eq_refl eq_refl)
    as (r' & Hr' & _ & Hkv).
  exists r'. split; [exact Hr'|]. by apply Hkv.
Defined.

End DatasetManagerProofs.

(** * Properties of the membership store *)
Module MembershipManagerProofs.

Import MembershipManager Scenario.

Implicit Types (t : list Pgx.Row) (m : MembershipManagerUnit).

(** ** The statements on the table *)

Lemma named_absent name t :
  name ∉ Pgx.node_name <$> t -> Pgx.named name t = [].
Proof.
  unfold Pgx.named. induction t as [|a t IH]; [done|].
  rewrite fmap_cons, not_elem_of_cons. intros [Hne Hnin].
  rewrite filter_cons_False by done. by apply IH.
Qed.

Lemma named_nil_absent name t :
  Pgx.named name t = [] -> name ∉ Pgx.node_name <$> t.
Proof.
  unfold Pgx.named. intros Hnil [r [-> Hr]]%list_elem_of_fmap.
  assert (r ∈ filter (fun r0 => Pgx.node_name r0 = Pgx.node_name r) t) as Hin
    by (by apply list_elem_of_filter).
  rewrite Hnil in Hin. by apply not_elem_of_nil in Hin.
Qed.

Lemma overwrite_absent new t :
  Pgx.node_name new ∉ Pgx.node_name <$> t ->
  (fun old => if decide (Pgx.node_name old = Pgx.node_name new) then new else old) <$> t = t.
Proof.
  induction t as [|a t IH]; [done|].
  rewrite !fmap_cons, not_elem_of_cons. intros [Hne Hnin].
  rewrite decide_False by done. f_equal. by apply IH.
Qed.

Lemma delete_absent name t :
  Pgx.named name t = [] -> filter (fun r => Pgx.node_name r <> name) t = t.
Proof.
  intros Hnil%named_nil_absent. induction t as [|a t IH]; [done|].
  rewrite fmap_cons, not_elem_of_cons in Hnil. destruct Hnil as [Hne Hnin].
  rewrite filter_cons_True by done. f_equal. by apply IH.
Qed.

(** After the upsert of [new] the table has one row of that name, [new]. *)
Lemma upsert_named new t :
  Pgx.uniqueNames t -> Pgx.named (Pgx.node_name new) (Pgx.upsert new t) = [new].
Proof.
  unfold Pgx.upsert, Pgx.uniqueNames. intros Hnd.
  case_bool_decide as Hin.
  - induction t as [|a t IH]; [by apply elem_of_nil in Hin|].
    rewrite fmap_cons in Hnd, Hin. apply NoDup_cons in Hnd as [Ha Hnd].
    rewrite fmap_cons. unfold Pgx.named in *.
    destruct (decide (Pgx.node_name a = Pgx.node_name new)) as [Heq|Hne].
    + rewrite filter_cons_True by done. f_equal.
      rewrite Heq in Ha. rewrite overwrite_absent by done.
      by apply named_absent.
    + rewrite filter_cons_False by done. apply IH; [done|].
      apply elem_of_cons in Hin as [Hin|Hin]; [congruence|done].
  - unfold Pgx.named. rewrite filter_app, filter_cons_True by done.
    fold (Pgx.named (Pgx.node_name new) t). by rewrite named_absent.
Qed.

Lemma upsert_names new t :
  Pgx.node_name new ∈ Pgx.node_name <$> t ->
  Pgx.node_name <$>
    ((fun old => if decide (Pgx.node_name old = Pgx.node_name new) then new else old) <$> t)
  = Pgx.node_name <$> t.
Proof.
  intros _. rewrite <- list_fmap_compose. apply list_fmap_ext.
  intros i r _. simpl. by destruct (decide _).
Qed.

(** The upsert keeps the unique index on [node_name]. *)
Lemma upsert_unique new t :
  Pgx.uniqueNames t -> Pgx.uniqueNames (Pgx.upsert new t).
Proof.
  unfold Pgx.upsert, Pgx.uniqueNames. intros Hnd.
  case_bool_decide as Hin.
  - by rewrite upsert_names.
  - rewrite fmap_app. apply NoDup_app. split; [done|]. split.
    + intros x Hx [->|[]%elem_of_nil]%elem_of_cons. done.
    + apply NoDup_singleton.
Qed.

(** Rows of other names are those of before. *)
Lemma upsert_other new name t :
  name <> Pgx.node_name new -> Pgx.named name (Pgx.upsert new t) = Pgx.named name t.
Proof.
  intros Hne. unfold Pgx.upsert, Pgx.named.
  case_bool_decide as Hin.
  - clear Hin. induction t as [|a t IH]; [done|].
    rewrite fmap_cons.
    destruct (decide (Pgx.node_name a = Pgx.node_name new)) as [Heq|Hne'].
    + rewrite !filter_cons_False by congruence. done.
    + destruct (decide (Pgx.node_name a = name)).
      * rewrite !filter_cons_True by done. by f_equal.
      * by rewrite !filter_cons_False by done.
  - rewrite filter_app, filter_cons_False by done. by rewrite filter_nil, app_nil_r.
Qed.

(** ** [dbInsertNetworkNode] and [dbDeleteNetworkNode] *)

Section Insert.

Context `{TimeFormat}.

(** A successful insert has run the statement on the table. *)
Lemma dbInsertNetworkNode_ok nodeId node m :
  (dbInsertNetworkNode nodeId node m).1 = None ->
  nodeId <> "" /\ is_Some node
  /\ Pgx.table (pool (dbInsertNetworkNode nodeId node m).2)
       = Pgx.upsert (rowOf nodeId node) (Pgx.table (pool m)).
Proof.
  unfold dbInsertNetworkNode, Pgx.ExecUpsert.
  destruct (decide (nodeId = "")) as [|Hid]; [done|].
  destruct node as [nd|]; [|done].
  by destruct (Pgx.nextFault (pool m)).
Qed.

(** One successful insert under the unique index: one row of that name,
    built from the node, and the index still holds. *)
Lemma dbInsertNetworkNode_one_record nodeId node m :
  Pgx.uniqueNames (Pgx.table (pool m)) ->
  (dbInsertNetworkNode nodeId node m).1 = None ->
  Pgx.named nodeId (Pgx.table (pool (dbInsertNetworkNode nodeId node m).2))
    = [rowOf nodeId node]
  /\ Pgx.uniqueNames (Pgx.table (pool (dbInsertNetworkNode nodeId node m).2)).
Proof.
  intros Hu (_ & _ & ->)%dbInsertNetworkNode_ok. split.
  - exact (upsert_named (rowOf nodeId node) _ Hu).
  - by apply upsert_unique.
Qed.

(** C9: two successful inserts under one node name, the second after the
    first, leave exactly one row of that name in the table, and its columns
    are those of the second node: its Ifrit address, public identity, HTTPS
    address, port and formatted boot time. The unique index on the name is
    kept. *)
Theorem dbInsertNetworkNode_twice_is_upsert name (n1 n2 : Pb.Node) m :
  Pgx.uniqueNames (Pgx.table (pool m)) ->
  (dbInsertNetworkNode name (Some n1) m).1 = None ->
  (dbInsertNetworkNode name (Some n2) (dbInsertNetworkNode name (Some n1) m).2).1 = None ->
  Pgx.named name
    (Pgx.table (pool (dbInsertNetworkNode name (Some n2)
                        (dbInsertNetworkNode name (Some n1) m).2).2))
    = [ {| Pgx.node_name := name;
           Pgx.ip_address := Pb.IfritAddress n2;
           Pgx.public_id := Pb.Id n2;
           Pgx.https_address := Pb.HttpsAddress n2;
           Pgx.port := Pb.Port n2;
           Pgx.boottime := FormatRFC1123Z (Pb.AsTime (Pb.BootTime n2)) |} ]
  /\ Pgx.uniqueNames
       (Pgx.table (pool (dbInsertNetworkNode name (Some n2)
                           (dbInsertNetworkNode name (Some n1) m).2).2)).
Proof.
  intros Hu Hfirst Hsecond.
  destruct (dbInsertNetworkNode_one_record name (Some n1) m Hu Hfirst) as [_ Hu1].
  exact (dbInsertNetworkNode_one_record name (Some n2) _ Hu1 Hsecond).
Qed.

(** Rows of other names survive an insert as they were. *)
Lemma dbInsertNetworkNode_other nodeId node other m :
  other <> nodeId ->
  Pgx.named other (Pgx.table (pool (dbInsertNetworkNode nodeId node m).2))
    = Pgx.named other (Pgx.table (pool m)).
Proof.
  intros Hne. unfold dbInsertNetworkNode, Pgx.ExecUpsert.
  destruct (decide (nodeId = "")) as [|Hid]; [done|].
  destruct node as [nd|]; [|done].
  destruct (Pgx.nextFault (pool m)); [done|]. simpl.
  by apply upsert_other.
Qed.

End Insert.

(** The delete succeeds only when the statement ran, without a fault, and
    removed exactly one row. *)
Lemma dbDeleteNetworkNode_ok nodeId m :
  (dbDeleteNetworkNode nodeId m).1 = None <->
  nodeId <> "" /\ Pgx.nextFault (pool m) = false
  /\ length (Pgx.named nodeId (Pgx.table (pool m))) = 1%nat.
Proof.
  unfold dbDeleteNetworkNode, Pgx.ExecDelete.
  destruct (decide (nodeId = "")) as [->|Hid].
  { split; [done|]. by intros [? _]. }
  destruct (Pgx.nextFault (pool m)); simpl.
  { split; [done|]. by intros (_ & ? & _). }
  destruct (decide (Z.of_nat (length (Pgx.named nodeId (Pgx.table (pool m)))) <> 1))
    as [Hn|Hn]; simpl.
  - split; [done|]. intros (_ & _ & Hlen). rewrite Hlen in Hn. done.
  - split; [|done]. intros _. split; [done|]. split; [done|]. lia.
Qed.

(** C7: when no row has the given name, so that the delete affects zero
    rows, [dbDeleteNetworkNode] returns an error and the table is as before;
    whenever the statement ran (a non-empty identifier, no fault of the
    connection) the error is the one that names the node. *)
Theorem dbDeleteNetworkNode_zero_rows_is_error nodeId m :
  Pgx.named nodeId (Pgx.table (pool m)) = [] ->
  (exists e, (dbDeleteNetworkNode nodeId m).1 = Some e)
  /\ (nodeId <> "" -> Pgx.nextFault (pool m) = false ->
      ((Pgx.ExecDelete nodeId (pool m)).1 = (Pgx.mkCommandTag 0, None)
       /\ (dbDeleteNetworkNode nodeId m).1
            = Some ("Could not delete node with id '" +:+ nodeId +:+ "'")))
  /\ Pgx.table (pool (dbDeleteNetworkNode nodeId m).2) = Pgx.table (pool m).
Proof.
  intros Habs. unfold dbDeleteNetworkNode, Pgx.ExecDelete.
  destruct (decide (nodeId = "")) as [->|Hid].
  { split; [by eexists|]. by split. }
  destruct (Pgx.nextFault (pool m)); simpl.
  { split; [by eexists|]. by split. }
  rewrite Habs. simpl. split; [by eexists|]. split; [done|].
  by apply delete_absent.
Qed.

(** ** At concrete tables *)

#[local] Existing Instance InMemory.secondsFormat.

(** C9 at node "n1" registered twice, the second time from another
    address: the table has the one row of the second registration. *)
Lemma dbInsertNetworkNode_twice_is_upsert_witness :
  Pgx.table (pool (dbInsertNetworkNode "n1" (Some nodeN1')
                     (dbInsertNetworkNode "n1" (Some nodeN1) emptyUnit).2).2)
  = [ {| Pgx.node_name := "n1"; Pgx.ip_address := "10.0.0.9:9000";
         Pgx.public_id := []; Pgx.https_address := "10.0.0.9:9443";
         Pgx.port := 9443; Pgx.boottime := "1700000000" |} ]
  /\ Pgx.named "n1"
       (Pgx.table (pool (dbInsertNetworkNode "n1" (Some nodeN1')
                           (dbInsertNetworkNode "n1" (Some nodeN1) emptyUnit).2).2))
     = [ {| Pgx.node_name := "n1"; Pgx.ip_address := "10.0.0.9:9000";
            Pgx.public_id := []; Pgx.https_address := "10.0.0.9:9443";
            Pgx.port := 9443; Pgx.boottime := "1700000000" |} ].
Proof.
  split; [vm_compute; reflexivity|].
  destruct (dbInsertNetworkNode_twice_is_upsert "n1" nodeN1 nodeN1' emptyUnit)
    as [Hrow _].
  - apply NoDup_nil_2.
  - vm_compute; reflexivity.
  - vm_compute; reflexivity.
  - rewrite Hrow. vm_compute; reflexivity.
Defined.

(** C7 at a table that holds "n1" only: deleting "n2" is an error and
    the table still holds "n1". *)
Lemma dbDeleteNetworkNode_zero_rows_is_error_witness :
  (dbDeleteNetworkNode "n2" oneNodeUnit).1
    = Some "Could not delete node with id 'n2'"
  /\ Pgx.node_name <$> Pgx.table (pool (dbDeleteNetworkNode "n2" oneNodeUnit).2) = ["n1"].
Proof.
  destruct (dbDeleteNetworkNode_zero_rows_is_error "n2" oneNodeUnit)
    as (_ & Herr & Htable).
  - vm_compute; reflexivity.
  - destruct Herr as [_ Herr]; [done|vm_compute; reflexivity|].
    rewrite Herr, Htable. split; vm_compute; reflexivity.
Defined.

End MembershipManagerProofs.

(** * Properties of the directory server core *)
Module DirectoryServerProofs.

Import DirectoryServer.

Section Core.

Context {L M C G : Type}.
Context `{Proto} `{Ifrit}.
Context `{datasetLookupService L} `{membershipManager M}.
Context `{datasetCheckoutManager C} `{gossipObserver G}.

Implicit Types (d : DirectoryServerCore L M C G) (body : list Pb.GossipMessageBody).

(** The loop runs [applyPolicy] on every entry, in order; an error is
    logged and the next entry is taken. *)
Lemma applyPolicies_foldl body d :
  applyPolicies body d =
  foldl (fun d m => logIfError (applyPolicy (Pb.GetPolicy m) d).1
                      (applyPolicy (Pb.GetPolicy m) d).2) d body.
Proof.
  revert d. induction body as [|m body IH]; intros d; [done|].
  simpl. destruct (applyPolicy (Pb.GetPolicy m) d) as [err d']. apply IH.
Qed.

Lemma applyPolicies_app body1 body2 d :
  applyPolicies (body1 ++ body2) d = applyPolicies body2 (applyPolicies body1 d).
Proof. by rewrite !applyPolicies_foldl, foldl_app. Qed.

(** What the loop does to the state: the checkout manager is asked once
    for each policy, the log grows by one error for each entry without
    one, and nothing else changes. *)
Lemma applyPolicies_effects body d :
  checkoutManager (applyPolicies body d)
    = foldl (fun c id => (DatasetIsCheckedOut id c).2) (checkoutManager d)
        (policyTargets body)
  /\ logs (applyPolicies body d) = (logs d ++ nilPolicyErrors body)%list
  /\ dsLookupService (applyPolicies body d) = dsLookupService d
  /\ memManager (applyPolicies body d) = memManager d
  /\ gossipObs (applyPolicies body d) = gossipObs d
  /\ config (applyPolicies body d) = config d.
Proof.
  revert d. induction body as [|m body IH]; intros d.
  - simpl. by rewrite app_nil_r.
  - simpl. unfold applyPolicy.
    destruct m as [[p|]]; simpl.
    + destruct (DatasetIsCheckedOut (Pb.DatasetIdentifier p) (checkoutManager d))
        as [b c'] eqn:Hq. simpl.
      destruct (IH (setCheckout c' d)) as (-> & -> & -> & -> & -> & ->).
      unfold policyTargets, nilPolicyErrors. simpl.
      by rewrite filter_cons_False.
    + destruct (IH (logAt Log.Error "Policy to be applied is nil" d))
        as (-> & -> & -> & -> & -> & ->).
      unfold policyTargets, nilPolicyErrors. simpl.
      by rewrite <- app_assoc.
Qed.

(** C8: [processPolicyBatch] on a message with a policy batch returns
    (nil, nil) whatever [applyPolicy] returned on the entries; it has run
    [applyPolicy] on every entry of the batch in order, logging an error and
    going on to the next entry; so the checkout manager has been asked for
    the dataset of every policy of the batch, those after a failed entry
    included, and every entry without a policy has left one error in the
    log. *)
Theorem processPolicyBatch_continues_on_error (msg : Pb.Message) body d :
  Pb.GetGossipMessageBody (Pb.gossipMessage msg) = Some body ->
  (processPolicyBatch (Some msg) d).1 = (None, None)
  /\ (processPolicyBatch (Some msg) d).2
       = foldl (fun d m => logIfError (applyPolicy (Pb.GetPolicy m) d).1
                             (applyPolicy (Pb.GetPolicy m) d).2) d body
  /\ checkoutManager (processPolicyBatch (Some msg) d).2
       = foldl (fun c id => (DatasetIsCheckedOut id c).2) (checkoutManager d)
           (policyTargets body)
  /\ logs (processPolicyBatch (Some msg) d).2 = (logs d ++ nilPolicyErrors body)%list.
Proof.
  intros Hbody. unfold processPolicyBatch.
  destruct (Pb.gossipMessage msg) as [g|]; [|done].
  rewrite Hbody. simpl.
  destruct (applyPolicies_effects body d) as (Hc & Hl & _).
  by rewrite <- applyPolicies_foldl.
Qed.

(** [messageHandler] does not read the signature of a message: two wire
    messages that differ in their signature alone are handled alike. *)
Lemma messageHandler_signature_blind data data' msg sig d :
  Unmarshal data = inr msg ->
  Unmarshal data' = inr (Pb.withSignature sig msg) ->
  messageHandler data' d = messageHandler data d.
Proof. intros Hm Hm'. unfold messageHandler. by rewrite Hm, Hm'. Qed.

(** [resolveDatasetIdentifiersDeltas] leaves the whole state as it was. *)
Lemma resolveDatasetIdentifiersDeltas_state ids node d :
  (resolveDatasetIdentifiersDeltas ids node d).2 = d.
Proof. unfold resolveDatasetIdentifiersDeltas. by destruct ids, node. Qed.

(** The response of a successful [messageHandler] is the marshalled
    message of type OK, whose signature is nil. *)
Lemma messageHandler_response data d resp :
  (messageHandler data d).1.1 = Some resp ->
  Marshal (Pb.ofType message.MSG_TYPE_OK) = inr resp
  /\ Pb.Signature (Pb.ofType message.MSG_TYPE_OK) = None.
Proof.
  unfold messageHandler. destruct (Unmarshal data) as [e|msg]; [done|]. simpl.
  match goal with
  | |- context [let '(_, _) := ?x in _] => destruct x as [[e|] d']
  end; [done|].
  destruct (Marshal (Pb.ofType message.MSG_TYPE_OK)) as [e|bs]; [done|].
  simpl. by intros [= ->].
Qed.

(** The request of [rollbackCheckout] carries the signature [Sign] gave
    for the marshalled message. *)
Lemma rollbackCheckoutRequest_signed now dataset d out :
  rollbackCheckoutRequest now dataset d = inr out ->
  exists msg data r s,
    Pb.Signature msg = None
    /\ Marshal msg = inr data
    /\ Sign data = inr (r, s)
    /\ Marshal (Pb.withSignature (Some {| Pb.R := r; Pb.S := s |}) msg) = inr out.
Proof.
  unfold rollbackCheckoutRequest.
  match goal with |- context [Marshal ?m] => set (msg := m) end.
  destruct (Marshal msg) as [e|data] eqn:Hm; [done|].
  destruct (Sign data) as [e|[r s]] eqn:Hs; [done|].
  intros Hout. by exists msg, data, r, s.
Qed.

(** A gossip message with a policy batch is applied on every delivery:
    the handler records the observation and never asks whether the message
    was observed before. *)
Lemma gossipMessageHandler_applies_batch data (msg : Pb.Message) body d :
  Unmarshal data = inr msg ->
  Pb.type msg = message.MSG_TYPE_POLICY_STORE_UPDATE ->
  Pb.GetGossipMessageBody (Pb.gossipMessage msg) = Some body ->
  checkoutManager (gossipMessageHandler data d).2
    = foldl (fun c id => (DatasetIsCheckedOut id c).2) (checkoutManager d)
        (policyTargets body).
Proof.
  intros Hm Ht Hbody. unfold gossipMessageHandler. rewrite Hm, Ht. simpl.
  destruct (InsertObservedGossip (Pb.gossipMessage msg) (gossipObs d)) as [err g'].
  unfold processPolicyBatch.
  destruct (Pb.gossipMessage msg) as [g|]; [|done].
  simpl in Hbody |- *. rewrite Hbody. simpl.
  match goal with
  | |- context [applyPolicies body ?d1] =>
      destruct (applyPolicies_effects body d1) as (-> & _)
  end.
  by destruct err.
Qed.

End Core.

(** ** Handshake over the membership store of database.go *)
Section Handshake.

Context {L C G : Type}.
Context `{Proto} `{Ifrit} `{TimeFormat}.
Context `{datasetLookupService L}.
Context `{datasetCheckoutManager C} `{gossipObserver G}.

Implicit Types d : DirectoryServerCore L MembershipManager.MembershipManagerUnit C G.

Lemma Handshake_ok_inserts node d :
  (Handshake node d).1.2 = None ->
  (MembershipManager.dbInsertNetworkNode (Pb.GetName node) node (memManager d)).1 = None
  /\ memManager (Handshake node d).2
       = (MembershipManager.dbInsertNetworkNode (Pb.GetName node) node (memManager d)).2.
Proof.
  unfold Handshake. destruct node as [nd|]; [|done]. simpl.
  destruct (MembershipManager.dbInsertNetworkNode (Pb.Name nd) (Some nd) (memManager d))
    as [[e|] m']; [done|]. done.
Qed.

(** Two successful handshakes of nodes of one name leave one membership
    row of that name, built from the second node. *)
Lemma Handshake_twice_one_record (n1 n2 : Pb.Node) d :
  Pb.Name n1 = Pb.Name n2 ->
  Pgx.uniqueNames (Pgx.table (MembershipManager.pool (memManager d))) ->
  (Handshake (Some n1) d).1.2 = None ->
  (Handshake (Some n2) (Handshake (Some n1) d).2).1.2 = None ->
  Pgx.named (Pb.Name n2)
    (Pgx.table (MembershipManager.pool
       (memManager (Handshake (Some n2) (Handshake (Some n1) d).2).2)))
  = [MembershipManager.rowOf (Pb.Name n2) (Some n2)].
Proof.
  intros Hname Hu [Hok1 Hm1]%Handshake_ok_inserts [Hok2 Hm2]%Handshake_ok_inserts.
  rewrite Hm2. rewrite Hm1 in Hok2 |- *. simpl in *.
  destruct (MembershipManagerProofs.dbInsertNetworkNode_one_record _ _ _ Hu Hok1)
    as [_ Hu1].
  by destruct (MembershipManagerProofs.dbInsertNetworkNode_one_record _ _ _ Hu1 Hok2).
Qed.

End Handshake.

(** ** At the concrete directory server *)
Section Concrete.

Import Scenario.

#[local] Existing Instance InMemory.secondsFormat.
#[local] Existing Instance InMemory.mirrorIfrit.

#[local] Existing Instance codec.

(** C8 at a batch whose second entry has no policy: the call returns
    (nil, nil), the checkout manager has been asked about d1 and about d2,
    the entry after the failure, and the failure is in the log. *)
Lemma processPolicyBatch_continues_on_error_witness :
  (processPolicyBatch (Some mixedUpdate) core0).1 = (None, None)
  /\ InMemory.queries (checkoutManager (processPolicyBatch (Some mixedUpdate) core0).2)
       = ["d1"; "d2"]
  /\ logs (processPolicyBatch (Some mixedUpdate) core0).2
       = [Log.mkEntry Log.Error "Policy to be applied is nil"].
Proof.
  destruct (processPolicyBatch_continues_on_error mixedUpdate mixedBatch core0 eq_refl)
    as (Hret & _ & Hqueries & Hlogs).
  rewrite Hret, Hqueries, Hlogs. by vm_compute.
Defined.

(** C1 at a tampered message. The announcement of "dataset-1" signed by
    node N verifies; the same message with its payload changed to
    "dataset-X" under the old signature does not. [messageHandler] handles
    the tampered bytes like any message: it answers OK and the lookup table
    has the entry of the tampered payload. *)
Theorem messageHandler_accepts_tampered_message :
  signatureVerifies announceSigned = true
  /\ signatureVerifies tampered = false
  /\ Unmarshal [Byte.x04] = inr tampered
  /\ (messageHandler [Byte.x04] core0).1 = (Some [Byte.x05], None)
  /\ dsLookupService core0 !! "dataset-X" = None
  /\ dsLookupService (messageHandler [Byte.x04] core0).2 !! "dataset-X" = Some "N".
Proof. repeat split; by vm_compute. Qed.

(** C2 at gossip message g1 delivered twice. After the first delivery the
    message is observed and the checkout manager has been asked about d1
    once; the second delivery asks again: the policy is applied twice. *)
Theorem gossipMessageHandler_reapplies_duplicate :
  GossipIsObserved (Pb.gossipMessage policyUpdate)
    (gossipObs (gossipMessageHandler [Byte.x07] core0).2) = true
  /\ InMemory.queries (checkoutManager (gossipMessageHandler [Byte.x07] core0).2)
       = ["d1"]
  /\ InMemory.queries
       (checkoutManager
          (gossipMessageHandler [Byte.x07]
             (gossipMessageHandler [Byte.x07] core0).2).2)
     = ["d1"; "d1"].
Proof. repeat split; by vm_compute. Qed.

(** C3 at the example of the specification: the table holds a, b, c and
    the stale x for node N and y for node M, and N synchronizes a, b, c.
    The handler answers OK and the table is as before, x included. *)
Theorem synchronize_keeps_stale_entry :
  (messageHandler [Byte.x06] staleCore).1 = (Some [Byte.x05], None)
  /\ dsLookupService (messageHandler [Byte.x06] staleCore).2 !! "x" = Some "N"
  /\ dsLookupService (messageHandler [Byte.x06] staleCore).2
       = dsLookupService staleCore.
Proof. repeat split; by vm_compute. Qed.

(** C4 at an announcement that is handled with success: the response
    decodes to a message of type OK whose signature is nil, although the
    signer of the server is at hand: the rollback request of the same
    server decodes to a message with the signature [Sign] gave. *)
Theorem messageHandler_ack_is_unsigned :
  (messageHandler [Byte.x01] core0).1 = (Some [Byte.x05], None)
  /\ Unmarshal [Byte.x05] = inr (Pb.ofType message.MSG_TYPE_OK)
  /\ Pb.Signature (Pb.ofType message.MSG_TYPE_OK) = None
  /\ rollbackCheckoutRequest (Pb.mkTimestamp 1700000000 0) "dataset-1" core0
       = inr [Byte.x09]
  /\ Unmarshal [Byte.x09] = inr rollbackSigned
  /\ Pb.Signature rollbackSigned
       = Some {| Pb.R := [Byte.x08]; Pb.S := [Byte.x08] |}
  /\ Sign [Byte.x08] = inr ([Byte.x08], [Byte.x08]).
Proof. repeat split; by vm_compute. Qed.

End Concrete.

End DirectoryServerProofs.

(** * Further properties of the dataset lookup service *)
Module DatasetManagerMore.

Import DatasetManager Scenario.

Section Service.

Context `{Proto} `{ProtoNode} `{LookupStore DB} `{LookupStoreAdmin DB}.

Implicit Types (d : DatasetLookupService DB) (k : string).

Lemma cacheDatasetNode_spec k r :
  cacheDatasetNode k r =
    (if Redis.nextFault r then (None, Some Redis.errConn)
     else
       match Redis.kv r !! k with
       | Some bs =>
           match UnmarshalNode bs with
           | inl e => (None, Some e)
           | inr node => (Some node, None)
           end
       | None => (None, Some "Node was not found in cache")
       end,
     Redis.advance r).
Proof.
  unfold cacheDatasetNode, Redis.MGet.
  destruct (Redis.nextFault r); [done|]. simpl.
  destruct (Redis.kv r !! k) as [bs|]; [|done].
  by destruct (UnmarshalNode bs).
Qed.

(** The state of the service after an insert that found a cache which
    accepts the write. *)
Lemma InsertDatasetNode_cache_written k node bs r d :
  redisClient d = Some r ->
  MarshalNode node = inr bs ->
  Redis.nextFault r = false ->
  redisClient (InsertDatasetNode k node d).2
    = Some {| Redis.kv := <[k := bs]> (Redis.kv r);
              Redis.faults := tail (Redis.faults r) |}.
Proof.
  intros Hr Hm Hf. unfold InsertDatasetNode, cacheInsertDatasetNode.
  rewrite Hr, Hm. unfold Redis.Set_. rewrite Hf. simpl.
  by destruct (dbInsertDatasetNode k node (datasetLookupDB d)).
Qed.

(** The cache is written before the store and the write is not undone:
    once the cache has accepted the node, a following [DatasetNodeExists]
    that reaches the cache answers [true], whatever the store write
    returned, an error included. *)
Theorem InsertDatasetNode_cache_outlives_store_error k node bs r d :
  k <> "" ->
  redisClient d = Some r ->
  MarshalNode node = inr bs ->
  Redis.nextFault r = false ->
  Redis.nextFault (Redis.advance r) = false ->
  (DatasetNodeExists k (InsertDatasetNode k node d).2).1 = true.
Proof.
  intros Hk Hr Hm Hf Hf'.
  pose proof (InsertDatasetNode_cache_written k node bs r d Hr Hm Hf) as Hc.
  unfold DatasetNodeExists. rewrite decide_False by done.
  rewrite Hc, DatasetManagerProofs.cacheDatasetNodeExists_spec.
  unfold Redis.nextFault in *. simpl in *. rewrite Hf'. simpl.
  rewrite lookup_insert_eq. rewrite bool_decide_true by eauto. done.
Qed.

(** Insert and lookup through the cache: a node the cache has accepted is
    the node [DatasetNode] returns when its bytes unmarshal to it, for every
    identifier, the empty one included, and whatever the store holds. *)
Theorem InsertDatasetNode_then_DatasetNode k (node : Pb.Node) bs r d :
  redisClient d = Some r ->
  MarshalNode (Some node) = inr bs ->
  UnmarshalNode bs = inr node ->
  Redis.nextFault r = false ->
  Redis.nextFault (Redis.advance r) = false ->
  (DatasetNode k (InsertDatasetNode k (Some node) d).2).1 = Some node.
Proof.
  intros Hr Hm Hu Hf Hf'.
  pose proof (InsertDatasetNode_cache_written k (Some node) bs r d Hr Hm Hf) as Hc.
  unfold DatasetNode. rewrite Hc, cacheDatasetNode_spec.
  unfold Redis.nextFault in *. simpl in *. rewrite Hf'.
  by rewrite lookup_insert_eq, Hu.
Qed.

(** [DatasetNode] reads through and never writes back: the key space of
    the cache is the same after the call. A node the cache hands out is
    returned without a call to the store; in every other case (no cache, a
    fault, a miss, bytes that do not unmarshal) the answer is the store's. *)
Theorem DatasetNode_reads_through k d :
  (Redis.kv <$> redisClient (DatasetNode k d).2) = (Redis.kv <$> redisClient d)
  /\ match cachedNode k d with
     | Some node =>
         (DatasetNode k d).1 = Some node
         /\ datasetLookupDB (DatasetNode k d).2 = datasetLookupDB d
     | None =>
         (DatasetNode k d).1 = (dbSelectDatasetNode k (datasetLookupDB d)).1
         /\ datasetLookupDB (DatasetNode k d).2
              = (dbSelectDatasetNode k (datasetLookupDB d)).2
     end.
Proof.
  unfold DatasetNode, cachedNode.
  destruct (redisClient d) as [r|] eqn:Hr.
  - rewrite cacheDatasetNode_spec.
    destruct (Redis.nextFault r); simpl.
    + by destruct (dbSelectDatasetNode k (datasetLookupDB d)).
    + destruct (Redis.kv r !! k) as [bs|]; simpl.
      * destruct (UnmarshalNode bs) as [e|node]; simpl.
        -- by destruct (dbSelectDatasetNode k (datasetLookupDB d)).
        -- done.
      * by destruct (dbSelectDatasetNode k (datasetLookupDB d)).
  - destruct (dbSelectDatasetNode k (datasetLookupDB d)) as [n db'] eqn:Hs.
    simpl. by rewrite Hr.
Qed.

(** The answer of [DatasetNodeExists] for a non-empty identifier: a hit
    of the cache, or else the answer of the store. *)
Lemma DatasetNodeExists_answer k d :
  k <> "" ->
  (DatasetNodeExists k d).1
    = cacheHit k d || (dbDatasetNodeExists k (datasetLookupDB d)).1.
Proof.
  intros Hk. unfold DatasetNodeExists, cacheHit.
  rewrite decide_False by done.
  destruct (redisClient d) as [r|] eqn:Hr.
  - rewrite DatasetManagerProofs.cacheDatasetNodeExists_spec.
    destruct (Redis.nextFault r); simpl.
    + destruct (dbDatasetNodeExists k (datasetLookupDB d)) as [[] db1]; simpl; [|done].
      destruct (dbSelectDatasetNode k db1) as [[n|] db2]; simpl; [|done].
      destruct (MarshalNode (Some n)); [done|].
      by destruct (Redis.Set_ _ _ _).
    + case_bool_decide; simpl; [done|].
      destruct (dbDatasetNodeExists k (datasetLookupDB d)) as [[] db1]; simpl; [|done].
      destruct (dbSelectDatasetNode k db1) as [[n|] db2]; simpl; [|done].
      destruct (MarshalNode (Some n)); [done|].
      by destruct (Redis.Set_ _ _ _).
  - destruct (dbDatasetNodeExists k (datasetLookupDB d)) as [ex db1].
    unfold setDB; simpl. rewrite Hr. by destruct ex.
Qed.

(** [RemoveDatasetNode] returns the error of the store and nothing else:
    the store removal is always made, on the store as it was; the cache, if
    there is one, has lost the key unless its command faulted, and a key
    that was not cached or a fault is only logged. *)
Theorem RemoveDatasetNode_store_decides k d :
  (RemoveDatasetNode k d).1 = (dbRemoveDatasetNode k (datasetLookupDB d)).1
  /\ datasetLookupDB (RemoveDatasetNode k d).2
       = (dbRemoveDatasetNode k (datasetLookupDB d)).2
  /\ (Redis.kv <$> redisClient (RemoveDatasetNode k d).2)
       = ((fun r => if Redis.nextFault r then Redis.kv r else delete k (Redis.kv r))
            <$> redisClient d).
Proof.
  unfold RemoveDatasetNode, cacheRemoveDatasetNode, Redis.Del.
  destruct (redisClient d) as [r|] eqn:Hr.
  - destruct (Redis.nextFault r) eqn:Hf; simpl; rewrite ?Hf.
    + by destruct (dbRemoveDatasetNode k (datasetLookupDB d)).
    + case_bool_decide; simpl;
        by destruct (dbRemoveDatasetNode k (datasetLookupDB d)).
  - destruct (dbRemoveDatasetNode k (datasetLookupDB d)). simpl. by rewrite Hr.
Qed.

(** The cache and the store after a removal whose cache command did not
    fault. *)
Lemma RemoveDatasetNode_store_decides_aux k r d :
  redisClient d = Some r ->
  Redis.nextFault r = false ->
  redisClient (RemoveDatasetNode k d).2
    = Some {| Redis.kv := delete k (Redis.kv r); Redis.faults := tail (Redis.faults r) |}
  /\ datasetLookupDB (RemoveDatasetNode k d).2
       = (dbRemoveDatasetNode k (datasetLookupDB d)).2.
Proof.
  intros Hr Hf. unfold RemoveDatasetNode, cacheRemoveDatasetNode, Redis.Del.
  rewrite Hr, Hf. simpl.
  case_bool_decide; simpl; by destruct (dbRemoveDatasetNode k (datasetLookupDB d)).
Qed.

(** Removal and existence compose: after a removal whose cache command
    did not fault, [DatasetNodeExists] cannot be answered from the cache
    and is the answer of the store as the removal left it. *)
Theorem RemoveDatasetNode_then_DatasetNodeExists k r d :
  k <> "" ->
  redisClient d = Some r ->
  Redis.nextFault r = false ->
  (DatasetNodeExists k (RemoveDatasetNode k d).2).1
    = (dbDatasetNodeExists k (dbRemoveDatasetNode k (datasetLookupDB d)).2).1.
Proof.
  intros Hk Hr Hf. rewrite DatasetNodeExists_answer by done.
  destruct (RemoveDatasetNode_store_decides_aux k r d Hr Hf) as [Hc ->].
  unfold cacheHit. rewrite Hc. simpl.
  rewrite lookup_delete_eq.
  rewrite bool_decide_false by (by intros [? ?]).
  by rewrite andb_false_r.
Qed.


End Service.

#[local] Existing Instance InMemory.nodeProto.
#[local] Existing Instance InMemory.nameProtoNode.

(** With the store down and a working cache, the insert of "a" returns
    the error of the store and "a" exists afterwards. *)
Lemma InsertDatasetNode_cache_outlives_store_error_witness :
  (@InsertDatasetNode _ _ InMemory.downStore "a" (Some bareNode) downStoreService).1
    = Some "failed to connect to database"
  /\ (@DatasetNodeExists _ _ InMemory.downStore "a"
        (@InsertDatasetNode _ _ InMemory.downStore "a" (Some bareNode) downStoreService).2).1
     = true.
Proof.
  split; [by vm_compute|].
  by apply (@InsertDatasetNode_cache_outlives_store_error _ _ InMemory.downStore
              "a" (Some bareNode) (String.list_byte_of_string "N")
              {| Redis.kv := ∅; Redis.faults := [] |}).
Defined.

(** The node inserted under the empty identifier is the node [DatasetNode]
    returns for it. *)
Lemma InsertDatasetNode_then_DatasetNode_witness :
  (DatasetNode "" (InsertDatasetNode "" (Some bareNode) coldCacheService).2).1
    = Some bareNode.
Proof.
  by apply (InsertDatasetNode_then_DatasetNode "" bareNode
              (String.list_byte_of_string "N")
              {| Redis.kv := ∅; Redis.faults := [] |}).
Defined.

(** Dataset "a", cached and stored, does not exist after its removal. *)
Lemma RemoveDatasetNode_then_DatasetNodeExists_witness :
  (RemoveDatasetNode "a" warmService).1 = None
  /\ (DatasetNodeExists "a" (RemoveDatasetNode "a" warmService).2).1 = false.
Proof.
  split; [by vm_compute|].
  rewrite (RemoveDatasetNode_then_DatasetNodeExists "a"
             {| Redis.kv := {[ "a" := String.list_byte_of_string "N" ]};
                Redis.faults := [] |} warmService); [by vm_compute|done..].
Defined.

(** An empty cache hides the identifiers of the store. *)
Example DatasetIdentifiers_empty_cache :
  (DatasetIdentifiers coldCacheService).1 = []
  /\ (dbSelectDatasetIdentifiers (datasetLookupDB coldCacheService)).1 = ["a"].
Proof. split; by vm_compute. Qed.

End DatasetManagerMore.

(** * Further properties of the membership store *)
Module MembershipManagerMore.

Import MembershipManager Scenario.

Implicit Types (t : list Pgx.Row) (m : MembershipManagerUnit).

Lemma delete_unique name t :
  Pgx.uniqueNames t -> Pgx.uniqueNames (filter (fun r => Pgx.node_name r <> name) t).
Proof.
  unfold Pgx.uniqueNames. induction t as [|a t IH]; [done|].
  rewrite fmap_cons. intros [Ha Hnd]%NoDup_cons.
  destruct (decide (Pgx.node_name a <> name)).
  - rewrite filter_cons_True by done. rewrite fmap_cons. apply NoDup_cons.
    split; [|by apply IH].
    intros [r [Heq [_ Hin]%list_elem_of_filter]]%list_elem_of_fmap.
    apply Ha. apply list_elem_of_fmap. by exists r.
  - rewrite filter_cons_False by done. by apply IH.
Qed.

Lemma delete_named name t :
  Pgx.named name (filter (fun r => Pgx.node_name r <> name) t) = [].
Proof.
  unfold Pgx.named. induction t as [|a t IH]; [done|].
  destruct (decide (Pgx.node_name a <> name)).
  - rewrite filter_cons_True by done. by rewrite filter_cons_False by done.
  - by rewrite filter_cons_False by done.
Qed.

Lemma delete_other name other t :
  other <> name ->
  Pgx.named other (filter (fun r => Pgx.node_name r <> name) t) = Pgx.named other t.
Proof.
  intros Hne. unfold Pgx.named. induction t as [|a t IH]; [done|].
  destruct (decide (Pgx.node_name a = other)) as [Ha|Ha].
  - rewrite (filter_cons_True (fun r => Pgx.node_name r <> name)) by congruence.
    rewrite !filter_cons_True by done. by f_equal.
  - rewrite (filter_cons_False (fun r => Pgx.node_name r = other) a t) by done.
    destruct (decide (Pgx.node_name a <> name)).
    + rewrite filter_cons_True by done. by rewrite filter_cons_False by done.
    + by rewrite filter_cons_False by done.
Qed.

(** The unique index on the node name is an invariant of the writes: the
    table satisfies it after [dbInsertNetworkNode] and after
    [dbDeleteNetworkNode], whatever they were given and returned. *)
Theorem writes_keep_unique_names `{TimeFormat} nodeId node m :
  Pgx.uniqueNames (Pgx.table (pool m)) ->
  Pgx.uniqueNames (Pgx.table (pool (dbInsertNetworkNode nodeId node m).2))
  /\ Pgx.uniqueNames (Pgx.table (pool (dbDeleteNetworkNode nodeId m).2)).
Proof.
  intros Hu. split.
  - unfold dbInsertNetworkNode, Pgx.ExecUpsert.
    destruct (decide (nodeId = "")) as [|Hid]; [done|].
    destruct node as [nd|]; [|done].
    destruct (Pgx.nextFault (pool m)); [done|]. simpl.
    by apply MembershipManagerProofs.upsert_unique.
  - unfold dbDeleteNetworkNode, Pgx.ExecDelete.
    destruct (decide (nodeId = "")) as [|Hid]; [done|].
    destruct (Pgx.nextFault (pool m)); [done|]. simpl.
    destruct (decide _); simpl; by apply delete_unique.
Qed.

(** Insert and read back: after a successful insert, and while the
    connection does not fault, the node exists and the node selected under
    that identifier has the identifier as its name, the addresses, identity
    and port of the inserted node, and as boot time what the parser reads
    from the stored text. *)
Theorem dbInsertNetworkNode_then_reads `{TimeFormat} `{TimeParse}
    nodeId node m bTime :
  Pgx.uniqueNames (Pgx.table (pool m)) ->
  (dbInsertNetworkNode nodeId node m).1 = None ->
  Pgx.nextFault (pool (dbInsertNetworkNode nodeId node m).2) = false ->
  ParseRFC1123Z (FormatRFC1123Z (Pb.AsTime (Pb.GetBootTime node))) = inr bTime ->
  (dbNetworkNodeExists nodeId (dbInsertNetworkNode nodeId node m).2).1 = (true, None)
  /\ (dbSelectNetworkNode nodeId (dbInsertNetworkNode nodeId node m).2).1
     = (Some {| Pb.Name := nodeId;
                Pb.IfritAddress := Pb.GetIfritAddress node;
                Pb.Id := Pb.GetId node;
                Pb.HttpsAddress := Pb.GetHttpsAddress node;
                Pb.Port := Pb.GetPort node;
                Pb.BootTime := Some bTime |}, None).
Proof.
  intros Hu Hok Hf Hparse.
  destruct (MembershipManagerProofs.dbInsertNetworkNode_one_record nodeId node m Hu Hok)
    as [Hrow _].
  destruct (MembershipManagerProofs.dbInsertNetworkNode_ok nodeId node m Hok)
    as (Hid & _ & _).
  set (m' := (dbInsertNetworkNode nodeId node m).2) in *.
  unfold dbNetworkNodeExists, dbSelectNetworkNode,
    Pgx.QueryRowExists, Pgx.QueryRowByName.
  rewrite !decide_False by done. rewrite Hf, Hrow. simpl.
  by rewrite Hparse.
Qed.

(** Insert and delete: after a successful insert the delete of that node
    succeeds while the connection does not fault, no row of that name is
    left, and the rows of every other name are those of before the insert. *)
Theorem dbInsertNetworkNode_then_delete `{TimeFormat} nodeId node m :
  Pgx.uniqueNames (Pgx.table (pool m)) ->
  (dbInsertNetworkNode nodeId node m).1 = None ->
  Pgx.nextFault (pool (dbInsertNetworkNode nodeId node m).2) = false ->
  (dbDeleteNetworkNode nodeId (dbInsertNetworkNode nodeId node m).2).1 = None
  /\ Pgx.named nodeId
       (Pgx.table (pool (dbDeleteNetworkNode nodeId
                           (dbInsertNetworkNode nodeId node m).2).2)) = []
  /\ forall other, other <> nodeId ->
       Pgx.named other
         (Pgx.table (pool (dbDeleteNetworkNode nodeId
                             (dbInsertNetworkNode nodeId node m).2).2))
       = Pgx.named other (Pgx.table (pool m)).
Proof.
  intros Hu Hok Hf.
  destruct (MembershipManagerProofs.dbInsertNetworkNode_one_record nodeId node m Hu Hok)
    as [Hrow _].
  destruct (MembershipManagerProofs.dbInsertNetworkNode_ok nodeId node m Hok)
    as (Hid & _ & Htable).
  set (m' := (dbInsertNetworkNode nodeId node m).2) in *.
  unfold dbDeleteNetworkNode, Pgx.ExecDelete.
  rewrite decide_False by done. rewrite Hf, Hrow. simpl.
  split; [done|]. split; [apply delete_named|].
  intros other Hne. rewrite delete_other by done.
  rewrite Htable. by apply MembershipManagerProofs.upsert_other.
Qed.

(** Reads of a node that is not in the table: [dbSelectNetworkNode]
    returns no node and no error, [dbNetworkNodeExists] returns false and
    no error, and the table is not changed. *)
Theorem reads_of_absent_node `{TimeParse} nodeId m :
  nodeId <> "" ->
  Pgx.named nodeId (Pgx.table (pool m)) = [] ->
  Pgx.nextFault (pool m) = false ->
  (dbSelectNetworkNode nodeId m).1 = (None, None)
  /\ (dbNetworkNodeExists nodeId m).1 = (false, None)
  /\ Pgx.table (pool (dbSelectNetworkNode nodeId m).2) = Pgx.table (pool m)
  /\ Pgx.table (pool (dbNetworkNodeExists nodeId m).2) = Pgx.table (pool m).
Proof.
  intros Hid Habs Hf.
  unfold dbNetworkNodeExists, dbSelectNetworkNode,
    Pgx.QueryRowExists, Pgx.QueryRowByName.
  rewrite !decide_False by done. rewrite Hf, Habs. by simpl.
Qed.

Section SelectAll.

Context `{TimeParse}.

(** The map the loop builds from rows of distinct names: the nodes of the
    rows, and under the other names what it started from. *)
Lemma scanNodes_lookup rows acc nodes name node :
  Pgx.uniqueNames rows ->
  scanNodes rows acc = inr nodes ->
  nodes !! name = Some node <->
    (exists r bTime,
        (r ∈ rows) /\ Pgx.node_name r = name
        /\ ParseRFC1123Z (Pgx.boottime r) = inr bTime /\ node = nodeOf r bTime)
    \/ ((name ∉ Pgx.node_name <$> rows) /\ acc !! name = Some node).
Proof.
  unfold Pgx.uniqueNames. revert acc.
  induction rows as [|a rows IH]; intros acc Hnd Hscan.
  - simpl in Hscan. injection Hscan as <-. split.
    + intros Hacc. right. split; [apply not_elem_of_nil|done].
    + intros [(r & ? & []%elem_of_nil & _)|[_ Hacc]]. done.
  - simpl in Hscan. rewrite fmap_cons in Hnd. apply NoDup_cons in Hnd as [Ha Hnd].
    destruct (ParseRFC1123Z (Pgx.boottime a)) as [e|ta] eqn:Hparse; [done|].
    rewrite (IH _ Hnd Hscan). rewrite fmap_cons. split.
    + intros [(r & bTime & Hin & Hname & Hp & ->)|[Hnin Hacc]].
      * left. exists r, bTime. rewrite elem_of_cons. by eauto.
      * destruct (decide (Pgx.node_name a = name)) as [Heq|Hne].
        -- subst name. rewrite lookup_insert_eq in Hacc. injection Hacc as <-.
           left. exists a, ta. rewrite elem_of_cons. by eauto.
        -- rewrite lookup_insert_ne in Hacc by done. right.
           rewrite not_elem_of_cons. by eauto.
    + intros [(r & bTime & [->|Hin]%elem_of_cons & Hname & Hp & ->)|[Hnin Hacc]].
      * right. subst name. split; [done|].
        rewrite lookup_insert_eq. congruence.
      * left. by exists r, bTime.
      * apply not_elem_of_cons in Hnin as [Hne Hnin]. right. split; [done|].
        by rewrite lookup_insert_ne.
Qed.


Lemma scanNodes_ok rows acc :
  (exists nodes, scanNodes rows acc = inr nodes) <->
  Forall (fun r => exists bTime, ParseRFC1123Z (Pgx.boottime r) = inr bTime) rows.
Proof.
  revert acc. induction rows as [|a rows IH]; intros acc; simpl.
  - split; [by intros _|]. intros _. by eexists.
  - rewrite Forall_cons.
    destruct (ParseRFC1123Z (Pgx.boottime a)) as [e|ta] eqn:Hparse.
    + split; [by intros [? ?]|]. by intros [[? ?] _].
    + rewrite IH. split; [|by intros [_ ?]]. intros Hall. split; [by eexists|done].
Qed.


End SelectAll.

(** ** At concrete tables *)

#[local] Existing Instance InMemory.secondsFormat.
#[local] Existing Instance InMemory.secondsParse.

(** Node "n1" registered on the empty table is found and read back. *)
Lemma dbInsertNetworkNode_then_reads_witness :
  (dbNetworkNodeExists "n1" (dbInsertNetworkNode "n1" (Some nodeN1') emptyUnit).2).1
    = (true, None)
  /\ (dbSelectNetworkNode "n1" (dbInsertNetworkNode "n1" (Some nodeN1') emptyUnit).2).1
     = (Some nodeN1', None).
Proof.
  by apply (dbInsertNetworkNode_then_reads "n1" (Some nodeN1') emptyUnit
              (Pb.mkTimestamp 1700000000 0)); [apply NoDup_nil_2|..].
Defined.

(** Node "n2" registered beside "n1" and deleted again: the table holds
    the row of "n1" as before. *)
Lemma dbInsertNetworkNode_then_delete_witness :
  (dbDeleteNetworkNode "n2" (dbInsertNetworkNode "n2" (Some nodeN1') oneNodeUnit).2).1
    = None
  /\ Pgx.named "n1"
       (Pgx.table (pool (dbDeleteNetworkNode "n2"
                           (dbInsertNetworkNode "n2" (Some nodeN1') oneNodeUnit).2).2))
     = Pgx.table (pool oneNodeUnit).
Proof.
  destruct (dbInsertNetworkNode_then_delete "n2" (Some nodeN1') oneNodeUnit)
    as (Hok & _ & Hother).
  - apply NoDup_singleton.
  - by vm_compute.
  - by vm_compute.
  - split; [exact Hok|]. rewrite Hother by done. by vm_compute.
Defined.

(** On a table that holds "n1" only, "n2" is not found and that is no
    error. *)
Lemma reads_of_absent_node_witness :
  (dbSelectNetworkNode "n2" oneNodeUnit).1 = (None, None)
  /\ (dbNetworkNodeExists "n2" oneNodeUnit).1 = (false, None).
Proof.
  destruct (reads_of_absent_node "n2" oneNodeUnit) as (Hsel & Hex & _); by vm_compute || done.
Defined.

(** The unique index holds after an insert into and after a delete from
    the table of "n1". *)
Lemma writes_keep_unique_names_witness :
  Pgx.uniqueNames
    (Pgx.table (pool (dbInsertNetworkNode "n2" (Some nodeN1') oneNodeUnit).2))
  /\ Pgx.uniqueNames (Pgx.table (pool (dbDeleteNetworkNode "n2" oneNodeUnit).2)).
Proof.
  apply (writes_keep_unique_names "n2" (Some nodeN1') oneNodeUnit).
  apply NoDup_singleton.
Defined.

(** An insert of "n2" leaves the row of "n1" as it was. *)
Lemma dbInsertNetworkNode_other_witness :
  Pgx.named "n1" (Pgx.table (pool (dbInsertNetworkNode "n2" (Some nodeN1') oneNodeUnit).2))
    = Pgx.table (pool oneNodeUnit).
Proof.
  by rewrite (MembershipManagerProofs.dbInsertNetworkNode_other "n2" (Some nodeN1') "n1"
                oneNodeUnit).
Defined.


End MembershipManagerMore.

(** * Further properties of the directory server core *)
Module DirectoryServerMore.

Import DirectoryServer Scenario.

Section Core.

Context {L M C G : Type}.
Context `{Proto} `{Ifrit}.
Context `{datasetLookupService L} `{membershipManager M}.
Context `{datasetCheckoutManager C} `{gossipObserver G}.

Implicit Types (d : DirectoryServerCore L M C G).

(** [messageHandler] returns a response or an error, never both and never
    neither, and it stays within the lookup service and the log: the
    membership manager, the checkout manager, the observation ledger and
    the configuration are those of before. *)
Theorem messageHandler_answers_or_fails data d :
  (is_Some (messageHandler data d).1.1 <-> (messageHandler data d).1.2 = None)
  /\ memManager (messageHandler data d).2 = memManager d
  /\ checkoutManager (messageHandler data d).2 = checkoutManager d
  /\ gossipObs (messageHandler data d).2 = gossipObs d
  /\ config (messageHandler data d).2 = config d.
Proof.
  unfold messageHandler.
  destruct (Unmarshal data) as [e|msg]; simpl.
  { split; [|done]. split; [by intros [? ?]|done]. }
  destruct (Pb.type msg); simpl;
    try (destruct (Marshal (Pb.ofType message.MSG_TYPE_OK)); simpl;
         (split; [|done]); split; (done || (by intros [? ?]) || by eexists)).
  - destruct (InsertDatasetLookupEntry _ _ _) as [[e|] l']; simpl.
    + split; [|done]. split; [by intros [? ?]|done].
    + destruct (Marshal (Pb.ofType message.MSG_TYPE_OK)); simpl;
        (split; [|done]); split; (done || (by intros [? ?]) || by eexists).
  - unfold resolveDatasetIdentifiersDeltas.
    destruct (Pb.StringSlice msg), (Pb.Sender msg); simpl;
      try (split; [|done]; split; [by intros [? ?]|done]).
    destruct (Marshal (Pb.ofType message.MSG_TYPE_OK)); simpl;
      (split; [|done]); split; (done || (by intros [? ?]) || by eexists).
Qed.

(** A message of any type but the two the handler knows is answered with
    [ErrUnknownMessageType]; the lookup service is not called and the log
    names the type. *)
Theorem messageHandler_unknown_type data (msg : Pb.Message) d :
  Unmarshal data = inr msg ->
  Pb.type msg <> message.MSG_TYPE_ADD_DATASET_IDENTIFIER ->
  Pb.type msg <> message.MSG_SYNCHRONIZE_DATASET_IDENTIFIERS ->
  (messageHandler data d).1 = (None, Some ErrUnknownMessageType)
  /\ dsLookupService (messageHandler data d).2 = dsLookupService d
  /\ logs (messageHandler data d).2
       = (logs d ++ [Log.mkEntry Log.Error
                       ("Unexpected message type '"
                        +:+ message.typeString (Pb.type msg) +:+ "'")])%list.
Proof.
  intros Hm Hadd Hsync. unfold messageHandler. rewrite Hm. simpl.
  by destruct (Pb.type msg).
Qed.

(** When the lookup service refuses the entry of an announcement, the
    sender gets [ErrDatasetLookupInsert] whatever the cause; the cause is
    in the log only. *)
Theorem messageHandler_insert_failure data (msg : Pb.Message) cause l' d :
  Unmarshal data = inr msg ->
  Pb.type msg = message.MSG_TYPE_ADD_DATASET_IDENTIFIER ->
  InsertDatasetLookupEntry (Pb.StringValue msg) (Pb.GetName (Pb.Sender msg))
    (dsLookupService d) = (Some cause, l') ->
  (messageHandler data d).1 = (None, Some ErrDatasetLookupInsert)
  /\ logs (messageHandler data d).2 = (logs d ++ [Log.mkEntry Log.Error cause])%list.
Proof.
  intros Hm Ht Hins. unfold messageHandler. rewrite Hm. simpl.
  by rewrite Ht, Hins.
Qed.

(** [gossipMessageHandler] never returns bytes, and it stays within the
    observation ledger, the checkout manager and the log: the lookup
    service, the membership manager and the configuration are those of
    before. *)
Theorem gossipMessageHandler_frame data d :
  (gossipMessageHandler data d).1.1 = None
  /\ dsLookupService (gossipMessageHandler data d).2 = dsLookupService d
  /\ memManager (gossipMessageHandler data d).2 = memManager d
  /\ config (gossipMessageHandler data d).2 = config d.
Proof.
  unfold gossipMessageHandler.
  destruct (Unmarshal data) as [e|msg]; [done|]. simpl.
  destruct (InsertObservedGossip (Pb.gossipMessage msg) (gossipObs d)) as [err g'].
  destruct (Pb.type msg); simpl; try (by destruct err).
  unfold processPolicyBatch.
  destruct (Pb.gossipMessage msg) as [g|]; simpl; [|by destruct err].
  destruct (Pb.body g) as [body|]; simpl; [|by destruct err].
  match goal with
  | |- context [applyPolicies body ?d1] =>
      destruct (DirectoryServerProofs.applyPolicies_effects body d1)
        as (_ & _ & -> & -> & _ & ->)
  end.
  by destruct err.
Qed.

(** Every gossip message that decodes is handed to the observation
    ledger, whatever its type and also when the ledger then returns an
    error; a message of any type but the policy update is then done with:
    (nil, nil) is returned and the checkout manager is not asked. *)
Theorem gossipMessageHandler_observes data (msg : Pb.Message) d :
  Unmarshal data = inr msg ->
  gossipObs (gossipMessageHandler data d).2
    = (InsertObservedGossip (Pb.gossipMessage msg) (gossipObs d)).2
  /\ (Pb.type msg <> message.MSG_TYPE_POLICY_STORE_UPDATE ->
      (gossipMessageHandler data d).1 = (None, None)
      /\ checkoutManager (gossipMessageHandler data d).2 = checkoutManager d).
Proof.
  intros Hm. unfold gossipMessageHandler. rewrite Hm. simpl.
  destruct (InsertObservedGossip (Pb.gossipMessage msg) (gossipObs d)) as [err g'].
  simpl.
  destruct (Pb.type msg); simpl; try (by destruct err).
  split; [|done].
  unfold processPolicyBatch.
  destruct (Pb.gossipMessage msg) as [g|]; simpl; [|by destruct err].
  destruct (Pb.body g) as [body|]; simpl; [|by destruct err].
  match goal with
  | |- context [applyPolicies body ?d1] =>
      destruct (DirectoryServerProofs.applyPolicies_effects body d1)
        as (_ & _ & _ & _ & -> & _)
  end.
  by destruct err.
Qed.

(** [processPolicyBatch] fails exactly when the message, its gossip
    message or the body of that is nil; it then applies nothing: the state
    is the one of before with the error in the log. *)
Theorem processPolicyBatch_fails_only_without_body (msg : option Pb.Message) d :
  ((processPolicyBatch msg d).1.2 = None
     <-> is_Some (Pb.GetGossipMessageBody (msg ≫= Pb.gossipMessage)))
  /\ (Pb.GetGossipMessageBody (msg ≫= Pb.gossipMessage) = None ->
      exists e, (processPolicyBatch msg d).1 = (None, Some e)
                /\ (processPolicyBatch msg d).2 = logAt Log.Error e d).
Proof.
  unfold processPolicyBatch.
  destruct msg as [msg|]; simpl.
  - destruct (Pb.gossipMessage msg) as [g|]; simpl.
    + destruct (Pb.body g) as [body|]; simpl.
      * split; [|done]. split; [by eexists|done].
      * split; [|by eexists]. split; [done|by intros [? ?]].
    + split; [|by eexists]. split; [done|by intros [? ?]].
  - split; [|by eexists]. split; [done|by intros [? ?]].
Qed.

(** Batches compose: a policy batch that is one batch followed by another
    leaves the state that the two batches leave when they are processed one
    after the other. *)
Theorem processPolicyBatch_split (msg msg1 msg2 : Pb.Message) body1 body2 d :
  Pb.GetGossipMessageBody (Pb.gossipMessage msg1) = Some body1 ->
  Pb.GetGossipMessageBody (Pb.gossipMessage msg2) = Some body2 ->
  Pb.GetGossipMessageBody (Pb.gossipMessage msg) = Some (body1 ++ body2)%list ->
  (processPolicyBatch (Some msg) d).2
    = (processPolicyBatch (Some msg2) (processPolicyBatch (Some msg1) d).2).2.
Proof.
  intros Hb1 Hb2 Hb12. unfold processPolicyBatch.
  destruct (Pb.gossipMessage msg) as [g|]; [|done].
  destruct (Pb.gossipMessage msg1) as [g1|]; [|done].
  destruct (Pb.gossipMessage msg2) as [g2|]; [|done].
  rewrite Hb1, Hb2, Hb12. simpl.
  apply DirectoryServerProofs.applyPolicies_app.
Qed.

(** [Handshake] of no node is an invalid-argument error that leaves the
    state alone. For a node, the membership manager is asked to add it
    under its own name and its error is the error returned; a response is
    returned exactly when it was added, and it carries host and port of the
    configuration and the Ifrit identity of the server; the lookup service,
    the checkout manager, the ledger and the configuration are not touched. *)
Theorem Handshake_outcome (node : option Pb.Node) d :
  match node with
  | None =>
      Handshake None d
        = ((None, Some "rpc error: code = InvalidArgument desc = pb node is nil"), d)
  | Some n =>
      memManager (Handshake node d).2
        = (AddNetworkNode (Pb.Name n) node (memManager d)).2
      /\ (Handshake node d).1.2 = (AddNetworkNode (Pb.Name n) node (memManager d)).1
      /\ (Handshake node d).1.1
           = match (AddNetworkNode (Pb.Name n) node (memManager d)).1 with
             | Some _ => None
             | None =>
                 Some {| Pb.Ip := Hostname (config d) +:+ ":"
                                    +:+ pretty (IfritTCPPort (config d));
                         Pb.RespId := String.list_byte_of_string IfritId |}
             end
      /\ dsLookupService (Handshake node d).2 = dsLookupService d
      /\ checkoutManager (Handshake node d).2 = checkoutManager d
      /\ gossipObs (Handshake node d).2 = gossipObs d
      /\ config (Handshake node d).2 = config d
  end.
Proof.
  destruct node as [n|]; [|done]. unfold Handshake. simpl.
  by destruct (AddNetworkNode (Pb.Name n) (Some n) (memManager d)) as [[e|] m'].
Qed.


(** [rollbackCheckout], once its request is built, succeeds when the
    channel yields nil and when it yields bytes that decode, whatever the
    message they decode to; it fails when they do not decode and when the
    context ends first. *)
Theorem rollbackCheckout_outcome now nodeAddr dataset outcome d out :
  rollbackCheckoutRequest now dataset d = inr out ->
  rollbackCheckout now nodeAddr dataset outcome d = None <->
    outcome = ResponseReceived None
    \/ exists data msg,
         outcome = ResponseReceived (Some data) /\ Unmarshal data = inr msg.
Proof.
  intros Hout. unfold rollbackCheckout. rewrite Hout.
  destruct outcome as [[data|]|].
  - destruct (Unmarshal data) as [e|msg] eqn:Hm.
    + split; [done|]. intros [[=]|(? & ? & [= <-] & ?)]. congruence.
    + split; [|done]. intros _. right. by exists data, msg.
  - split; [by left|done].
  - split; [done|]. by intros [[=]|(? & ? & [=] & _)].
Qed.

End Core.

(** ** At the concrete directory server *)
Section Concrete.

#[local] Existing Instance InMemory.secondsFormat.
#[local] Existing Instance InMemory.mirrorIfrit.
#[local] Existing Instance codec.

(** The code table reads back what it wrote. *)
Lemma wire_reads_back m bs : Marshal m = inr bs -> Unmarshal bs = inr m.
Proof.
  unfold Marshal, Unmarshal, codec, InMemory.tableProto, InMemory.tableMarshal.
  destruct (list_find (fun e => e.2 = m) wire) as [[i e]|] eqn:Hfind; [|done].
  intros [= <-]. apply list_find_Some in Hfind as (Hi & <- & _).
  do 9 (destruct i as [|i]; [injection Hi as <-; by vm_compute|]).
  done.
Qed.

(** A policy update sent as a direct message is of unknown type. *)
Lemma messageHandler_unknown_type_witness :
  (messageHandler [Byte.x07] core0).1 = (None, Some ErrUnknownMessageType)
  /\ dsLookupService (messageHandler [Byte.x07] core0).2 = ∅.
Proof.
  destruct (messageHandler_unknown_type [Byte.x07] policyUpdate core0)
    as (Hret & Hlookup & _); [done..|].
  by rewrite Hret, Hlookup.
Defined.

(** The announcement of "dataset-1" to a lookup service that refuses
    writes: the sender sees the generic error, the log has the cause. *)
Lemma messageHandler_insert_failure_witness :
  (@messageHandler _ _ _ _ _ InMemory.refusingLookup [Byte.x01] refusingCore).1
    = (None, Some ErrDatasetLookupInsert)
  /\ logs (@messageHandler _ _ _ _ _ InMemory.refusingLookup [Byte.x01] refusingCore).2
     = [Log.mkEntry Log.Error "read-only transaction"].
Proof.
  by apply (@messageHandler_insert_failure _ _ _ _ _ InMemory.refusingLookup
              [Byte.x01] announce "read-only transaction" tt refusingCore).
Defined.

(** An announcement that arrives as gossip has no gossip message: the
    ledger is still called, refuses it, and the handler returns (nil, nil). *)
Lemma gossipMessageHandler_observes_witness :
  (gossipMessageHandler [Byte.x01] core0).1 = (None, None)
  /\ gossipObs (gossipMessageHandler [Byte.x01] core0).2 = ∅
  /\ InMemory.queries (checkoutManager (gossipMessageHandler [Byte.x01] core0).2) = [].
Proof.
  destruct (gossipMessageHandler_observes [Byte.x01] announce core0)
    as (Hobs & Hrest); [by vm_compute|].
  destruct Hrest as (Hret & Hco); [done|].
  by rewrite Hret, Hobs, Hco.
Defined.


(** The rollback of "dataset-1" counts as done when the response is an
    announcement, and as failed when the context ends. *)
Lemma rollbackCheckout_outcome_witness :
  rollbackCheckout (Pb.mkTimestamp 1700000000 0) "10.0.0.7:8000" "dataset-1"
    (ResponseReceived (Some [Byte.x01])) core0 = None
  /\ rollbackCheckout (Pb.mkTimestamp 1700000000 0) "10.0.0.7:8000" "dataset-1"
       ContextDone core0 = Some "Could not verify dataset checkout rollback".
Proof.
  split; [|by vm_compute].
  apply (rollbackCheckout_outcome (Pb.mkTimestamp 1700000000 0) "10.0.0.7:8000"
           "dataset-1" _ core0 [Byte.x09]); [by vm_compute|].
  right. by exists [Byte.x01], announce.
Defined.

(** The batch of d1, an entry without policy and d2, against its first
    entry followed by its last two. *)
Lemma processPolicyBatch_split_witness :
  (processPolicyBatch (Some mixedUpdate) core0).2
    = (processPolicyBatch (Some tailUpdate)
         (processPolicyBatch (Some policyUpdate) core0).2).2.
Proof.
  by apply (processPolicyBatch_split mixedUpdate policyUpdate tailUpdate
              [ {| Pb.policy := Some (Pb.mkPolicy "d1" true) |} ]
              [ {| Pb.policy := None |};
                {| Pb.policy := Some (Pb.mkPolicy "d2" false) |} ]).
Defined.

End Concrete.

End DirectoryServerMore.

(** * Properties of the header helpers of the node's HTTP server *)
Module NodeHttpMore.

Import NodeHttp.

Implicit Types (s : string) (sep : Ascii.ascii).

Lemma splitOn_cons sep s : exists piece pieces, splitOn sep s = piece :: pieces.
Proof.
  induction s as [|c s IH]; simpl; [by eexists _, _|].
  destruct (decide (c = sep)); [by eexists _, _|].
  destruct IH as (piece & pieces & ->). by eexists _, _.
Qed.

Lemma splitOn_length sep s : length (splitOn sep s) = S (occurrences sep s).
Proof.
  induction s as [|c s IH]; simpl; [done|].
  destruct (decide (c = sep)); simpl; [by rewrite IH|].
  destruct (splitOn_cons sep s) as (piece & pieces & Hs).
  rewrite Hs in IH |- *. done.
Qed.

Lemma splitOn_join sep s : join sep (splitOn sep s) = s.
Proof.
  induction s as [|c s IH]; simpl; [done|].
  destruct (splitOn_cons sep s) as (piece & pieces & Hs). rewrite Hs in IH |- *.
  destruct (decide (c = sep)) as [->|Hne].
  - change (join sep (EmptyString :: piece :: pieces))
      with (EmptyString +:+ String sep (join sep (piece :: pieces))).
    by rewrite IH.
  - destruct pieces as [|piece' pieces]; [simpl in *; by rewrite IH|].
    change (join sep (String c piece :: piece' :: pieces))
      with (String c (piece +:+ String sep (join sep (piece' :: pieces)))).
    f_equal. exact IH.
Qed.

Lemma splitOn_pieces sep s : Forall (fun piece => occurrences sep piece = 0%nat) (splitOn sep s).
Proof.
  induction s as [|c s IH]; simpl; [by repeat constructor|].
  destruct (decide (c = sep)) as [->|Hne]; [by constructor|].
  destruct (splitOn_cons sep s) as (piece & pieces & Hs). rewrite Hs in IH |- *.
  apply Forall_cons in IH as [Hp Hps]. constructor; [|done].
  simpl. by rewrite decide_False.
Qed.

Lemma occurrences_app sep s1 s2 :
  occurrences sep (s1 +:+ s2) = (occurrences sep s1 + occurrences sep s2)%nat.
Proof. induction s1 as [|c s1 IH]; simpl; [done|]. rewrite IH. lia. Qed.

Lemma splitOn_two sep s1 s2 :
  occurrences sep s1 = 0%nat -> occurrences sep s2 = 0%nat ->
  splitOn sep (s1 +:+ String sep s2) = [s1; s2].
Proof.
  intros H1 H2. induction s1 as [|c s1 IH]; simpl in *.
  - rewrite decide_True by done. f_equal.
    clear H1. induction s2 as [|c s2 IH2]; simpl in *; [done|].
    destruct (decide (c = sep)); [done|]. by rewrite IH2.
  - destruct (decide (c = sep)); [done|]. by rewrite IH.
Qed.

(** [getBearerToken] accepts exactly the header values with one space in
    them and returns what follows the space: the scheme before the space is
    not looked at, and either side may be empty. A value without a space,
    the missing header among them, or with more than one is malformed. *)
Theorem getBearerToken_accepts (authHeader : string) (token : bytes) :
  getBearerToken authHeader = inr token <->
  exists scheme credentials,
    authHeader = scheme +:+ String space credentials
    /\ occurrences space scheme = 0%nat
    /\ occurrences space credentials = 0%nat
    /\ token = String.list_byte_of_string credentials.
Proof.
  unfold getBearerToken. split.
  - pose proof (splitOn_join space authHeader) as Hjoin.
    pose proof (splitOn_pieces space authHeader) as Hpieces.
    destruct (splitOn space authHeader) as [|a [|b [|c rest]]]; simpl; try done.
    intros [= <-]. exists a, b.
    apply Forall_cons in Hpieces as [Ha Hb%Forall_cons_1]. destruct Hb as [Hb _].
    by rewrite <- Hjoin.
  - intros (scheme & credentials & -> & Hs & Hc & ->).
    by rewrite splitOn_two.
Qed.

(** The header maps: a copy has the entries of its source; [setHeaders]
    gives the destination every entry of the source and keeps the entries
    of the destination under the other keys, so copying the headers of a
    response into those of the writer is the union in which the response
    wins. *)
Theorem setHeaders_is_union (src dest : gmap string (list string)) :
  copyHeaders src = src
  /\ setHeaders src dest = src ∪ dest
  /\ setHeaders (copyHeaders src) dest = src ∪ dest
  /\ forall k, setHeaders src dest !! k
       = match src !! k with Some v => Some v | None => dest !! k end.
Proof.
  assert (Hassign : forall a b : gmap string (list string), assignAll a b = a ∪ b).
  { intros a b. unfold assignAll.
    apply (map_fold_weak_ind (fun r m => r = m ∪ b)).
    - by rewrite (left_id_L ∅ (∪)).
    - intros i x m r _ ->. by rewrite insert_union_l. }
  unfold copyHeaders, setHeaders. rewrite !Hassign.
  rewrite (right_id_L ∅ (∪)). split; [done|]. split; [done|]. split; [done|].
  intros k. rewrite lookup_union. by destruct (src !! k), (dest !! k).
Qed.

End NodeHttpMore.
